(** * MoneyManager export: a shallow embedding of [mmgrexport.py]

    The program reads expense transactions from the Money Manager
    backup (an SQLite file), restricts them to a date range and renders
    a semicolon-separated report with a trailing total.

    The embedding follows the class [MoneyManagerQuery] method by
    method.  Python values are modelled as the interpreter has them:
    - [str] is a sequence of Unicode code points ([pystr]);
    - [int] is an unbounded integer ([Z]);
    - [float] is an IEEE-754 binary64 number ([spec_float], computed
      with the reference operations of [SpecFloat]);
    - exceptions are the [Raise] outcome of a small state-and-error
      monad over the fields of the object. *)

From Stdlib Require Import ZArith NArith List Bool Lia String Ascii Decimal.
From Stdlib Require Import Floats.SpecFloat.
From Stdlib Require DecimalPos DecimalN.
Import ListNotations.

Local Open Scope Z_scope.

(** ** Python strings *)

Module Py.

(** A Python [str]: the list of its code points. *)
Definition pystr := list N.

(** Decoding of the UTF-8 bytes of a source literal. *)
Fixpoint utf8_decode (bs : list N) : pystr :=
  match bs with
  | [] => []
  | b :: r =>
    if (b <? 128)%N then b :: utf8_decode r else
    match r with
    | [] => []
    | b1 :: r1 =>
      if (b <? 224)%N then ((b - 192) * 64 + (b1 - 128))%N :: utf8_decode r1 else
      match r1 with
      | [] => []
      | b2 :: r2 =>
        if (b <? 240)%N
        then ((b - 224) * 4096 + (b1 - 128) * 64 + (b2 - 128))%N :: utf8_decode r2
        else
        match r2 with
        | [] => []
        | b3 :: r3 =>
          ((b - 240) * 262144 + (b1 - 128) * 4096 + (b2 - 128) * 64 + (b3 - 128))%N
            :: utf8_decode r3
        end
      end
    end
  end.

(** [py "..."] is the Python string written by the literal. *)
Definition py (s : string) : pystr :=
  utf8_decode (map N_of_ascii (list_ascii_of_string s)).

(** [a == b] on strings. *)
Fixpoint str_eqb (a b : pystr) : bool :=
  match a, b with
  | [], [] => true
  | x :: a', y :: b' => (x =? y)%N && str_eqb a' b'
  | _, _ => false
  end.

(** Code points of the separators the program uses. *)
Definition SLASH : N := 47.
Definition DOT : N := 46.
Definition DASH : N := 45.
Definition COMMA : N := 44.

(** [s.find(c) >= 0] for a one-character needle [c]: the index of the
    first occurrence, or [-1]. *)
Fixpoint find (c : N) (s : pystr) : Z :=
  match s with
  | [] => -1
  | x :: r => if (x =? c)%N then 0
              else let i := find c r in if i <? 0 then -1 else i + 1
  end.

(** [s.split(c)] for a one-character separator [c]: the maximal runs
    between occurrences of [c]; never the empty list. *)
Fixpoint split (c : N) (s : pystr) : list pystr :=
  match s with
  | [] => [[]]
  | x :: r =>
    if (x =? c)%N then [] :: split c r
    else match split c r with
         | [] => [[x]]
         | p :: ps => (x :: p) :: ps
         end
  end.

(** [sep.join(parts)]. *)
Fixpoint join (sep : pystr) (parts : list pystr) : pystr :=
  match parts with
  | [] => []
  | [p] => p
  | p :: ps => p ++ sep ++ join sep ps
  end.

(** The code points [str.strip()] removes (the interpreter's
    [Py_UNICODE_ISSPACE]). *)
Definition isspace (c : N) : bool :=
  ((9 <=? c) && (c <=? 13) || (28 <=? c) && (c <=? 32)
   || (c =? 133) || (c =? 160) || (c =? 5760)
   || (8192 <=? c) && (c <=? 8202)
   || (c =? 8232) || (c =? 8233) || (c =? 8239) || (c =? 8287)
   || (c =? 12288))%N.

Fixpoint lstrip (s : pystr) : pystr :=
  match s with
  | [] => []
  | x :: r => if isspace x then lstrip r else s
  end.

(** [s.strip()]. *)
Definition strip (s : pystr) : pystr :=
  List.rev (lstrip (List.rev (lstrip s))).

(** [s.lower()].  ASCII capitals are mapped to their small letters.
    Outside ASCII the Unicode case tables are not reproduced: the only
    code point beyond U+007F whose lower case lies inside ASCII is the
    Kelvin sign U+212A (lowered to [k]); every other one is lowered to
    text that again contains a code point beyond U+007F and is left as
    it is here.  A comparison of the result with an ASCII string, the
    only use the program makes of [lower], is therefore exact. *)
Definition lower_cp (c : N) : N :=
  if ((65 <=? c) && (c <=? 90))%N then (c + 32)%N
  else if (c =? 8490)%N then 107%N
  else c.

Definition lower (s : pystr) : pystr := map lower_cp s.

(** ** Integers and text *)

Fixpoint digits_of_uint (u : Decimal.uint) : pystr :=
  match u with
  | Nil => []
  | D0 r => 48 :: digits_of_uint r | D1 r => 49 :: digits_of_uint r
  | D2 r => 50 :: digits_of_uint r | D3 r => 51 :: digits_of_uint r
  | D4 r => 52 :: digits_of_uint r | D5 r => 53 :: digits_of_uint r
  | D6 r => 54 :: digits_of_uint r | D7 r => 55 :: digits_of_uint r
  | D8 r => 56 :: digits_of_uint r | D9 r => 57 :: digits_of_uint r
  end%N.

(** Decimal digits of a natural number, most significant first
    (["0"] for zero). *)
Definition str_N (n : N) : pystr := digits_of_uint (N.to_uint n).

(** [str(z)] for an [int]. *)
Definition str_int (z : Z) : pystr :=
  match z with
  | Zneg p => DASH :: str_N (Npos p)
  | _ => str_N (Z.to_N z)
  end.

(** ["%02d" % n] and the like: [str_N n] left-padded with zeros to
    [width] characters. *)
Definition zfill (width : nat) (s : pystr) : pystr :=
  repeat 48%N (width - List.length s) ++ s.

End Py.

Import Py.

(** ** Python numbers

    The amount of a transaction is what SQLite hands back for the
    column: an [int] for an INTEGER value, a [float] for a REAL one. *)

Module PyNum.

Definition float := spec_float.
Definition prec : Z := 53.
Definition emax : Z := 1024.

Inductive pynum :=
| PyInt (z : Z)
| PyFloat (f : float).

(** [float(z)]: the nearest binary64 number, ties to even. *)
Definition float_of_int (z : Z) : float := binary_normalize prec emax z 0 false.

(** The binary64 number nearest to the fraction [p/q], the value of a
    decimal literal such as [12.345] = 12345/1000. *)
Definition float_of_ratio (neg : bool) (p q : positive) : float :=
  SFdiv prec emax (S754_finite neg p 0) (S754_finite false q 0).

(** A finite non-zero binary64 number [m * 2^e] as the fraction
    [num/den] of two positive integers. *)
Definition ratio_of_finite (m : positive) (e : Z) : Z * Z :=
  match e with
  | Zneg k => (Zpos m, 2 ^ Zpos k)
  | _ => (Zpos m * 2 ^ e, 1)
  end.

(** *** Shortest round-trip digits (the [repr] of a float) *)

(** The closed or open interval of reals that round to [m * 2^e], as
    fractions over the common denominator [4 * den]. *)
Definition rounding_interval (m : positive) (e : Z) : Z * Z * Z * bool :=
  let '(sc, den) := ratio_of_finite 1 e in
  let lowgap := if (Zpos m =? 2 ^ (prec - 1)) && (emin prec emax <? e) then 1 else 2 in
  ((4 * Zpos m - lowgap) * sc, (4 * Zpos m + 2) * sc, 4 * den, Z.even (Zpos m)).

(** Does the decimal [d * 10^k] round to the float with interval [iv]? *)
Definition in_interval (iv : Z * Z * Z * bool) (d k : Z) : bool :=
  let '(lo, hi, den, closed) := iv in
  let '(a, b) := if 0 <=? k then (d * 10 ^ k * den, 1) else (d * den, 10 ^ (- k)) in
  if closed then (lo * b <=? a) && (a <=? hi * b)
  else (lo * b <? a) && (a <? hi * b).

Definition ndigits10 (z : Z) : Z := Z.of_nat (List.length (str_N (Z.to_N z))).

(** [floor (log10 (num/den))]. *)
Definition log10_floor (num den : Z) : Z :=
  if den <=? num then ndigits10 (num / den) - 1
  else - ndigits10 ((den + num - 1) / num - 1).

(** The [n]-digit decimal nearest to [num/den] among those that round
    to the float, if there is one: [(d, k)] stands for [d * 10^k]. *)
Definition candidate (iv : Z * Z * Z * bool) (num den : Z) (n : Z) : option (Z * Z) :=
  let k := log10_floor num den - n + 1 in
  let '(a, b) := if 0 <=? k then (num, den * 10 ^ k) else (num * 10 ^ (- k), den) in
  let d := a / b in
  let r := a mod b in
  let lo_ok := in_interval iv d k in
  let hi_ok := in_interval iv (d + 1) k in
  let up := match 2 * r ?= b with Lt => false | Gt => true | Eq => Z.odd d end in
  if lo_ok && hi_ok then Some (if up then d + 1 else d, k)
  else if lo_ok then Some (d, k)
  else if hi_ok then Some (d + 1, k)
  else None.

Fixpoint shortest_from (iv : Z * Z * Z * bool) (num den : Z) (n : Z) (fuel : nat)
  : Z * Z :=
  match fuel with
  | O => (0, 0)
  | S fuel' =>
    match candidate iv num den n with
    | Some dk => dk
    | None => shortest_from iv num den (n + 1) fuel'
    end
  end.

Fixpoint strip_zeros (fuel : nat) (d k : Z) : Z * Z :=
  match fuel with
  | O => (d, k)
  | S fuel' => if (d mod 10 =? 0) && negb (d =? 0)
               then strip_zeros fuel' (d / 10) (k + 1) else (d, k)
  end.

(** The digits of the shortest decimal that rounds to [m * 2^e], and
    the position [decpt] of the decimal point: the value written is
    [0.d1 d2 ... dn * 10^decpt]. *)
Definition shortest_digits (m : positive) (e : Z) : pystr * Z :=
  let '(num, den) := ratio_of_finite m e in
  let '(d0, k0) := shortest_from (rounding_interval m e) num den 1 17 in
  let '(d, k) := strip_zeros 20 d0 k0 in
  let ds := str_N (Z.to_N d) in
  (ds, Z.of_nat (List.length ds) + k).

(** The layout [repr] gives the digits: exponent notation when
    [decpt <= -4] or [decpt > 16], positional notation with at least one
    digit after the point otherwise. *)
Definition format_repr (ds : pystr) (decpt : Z) : pystr :=
  let n := Z.of_nat (List.length ds) in
  if (decpt <=? -4) || (16 <? decpt) then
    let x := decpt - 1 in
    firstn 1 ds
      ++ (if 1 <? n then DOT :: skipn 1 ds else [])
      ++ py "e" ++ (if x <? 0 then py "-" else py "+")
      ++ zfill 2 (str_N (Z.to_N (Z.abs x)))
  else if decpt <=? 0 then
    py "0." ++ repeat 48%N (Z.to_nat (- decpt)) ++ ds
  else if n <=? decpt then
    ds ++ repeat 48%N (Z.to_nat (decpt - n)) ++ py ".0"
  else
    firstn (Z.to_nat decpt) ds ++ DOT :: skipn (Z.to_nat decpt) ds.

Definition sign_str (s : bool) : pystr := if s then py "-" else [].

(** [str(f)] for a [float]. *)
Definition str_float (f : float) : pystr :=
  match f with
  | S754_nan => py "nan"
  | S754_infinity s => sign_str s ++ py "inf"
  | S754_zero s => sign_str s ++ py "0.0"
  | S754_finite s m e =>
    let '(ds, decpt) := shortest_digits m e in
    sign_str s ++ format_repr ds decpt
  end.

(** [str(x)]. *)
Definition str_num (x : pynum) : pystr :=
  match x with
  | PyInt z => str_int z
  | PyFloat f => str_float f
  end.

(** [round(f, 2)] for a [float]: the exact value is rounded to the
    nearest multiple of 1/100, ties to even, and the decimal obtained is
    converted back to the nearest float. *)
Definition round2_float (f : float) : float :=
  match f with
  | S754_finite s m e =>
    let '(num, den) := ratio_of_finite m e in
    let q := (100 * num) / den in
    let r := (100 * num) mod den in
    let n := match 2 * r ?= den with
             | Lt => q
             | Gt => q + 1
             | Eq => if Z.even q then q else q + 1
             end in
    match n with
    | Zpos p => float_of_ratio s p 100
    | _ => S754_zero s
    end
  | _ => f
  end.

(** [round(x, 2)]: an [int] is returned as it is. *)
Definition round2 (x : pynum) : pynum :=
  match x with
  | PyInt z => PyInt z
  | PyFloat f => PyFloat (round2_float f)
  end.

End PyNum.

Import PyNum.

(** ** Exceptions *)

(** The exceptions the program can meet.  [OutOfModel] is not a Python
    exception: it marks a run whose SQL text, with a date option
    interpolated as it came, is no longer the statement modelled here
    (see [plain_text]). *)
Inductive exn :=
| ValueError
| AttributeError
| IndexError
| OverflowError
| IllegalMonthError
| OutOfModel.

Inductive outcome (A : Type) :=
| Ok (a : A)
| Raise (e : exn).
Arguments Ok {A} a.
Arguments Raise {A} e.

Definition obind {A B} (x : outcome A) (f : A -> outcome B) : outcome B :=
  match x with
  | Ok a => f a
  | Raise e => Raise e
  end.

Declare Scope outcome_scope.
Delimit Scope outcome_scope with outcome.
Notation "x <- c ;; k" := (obind c (fun x => k))
  (at level 61, c at next level, right associativity) : outcome_scope.

(** [x + y] on numbers: [int + int] is exact, any other mix is done in
    binary64 after [float(...)] of the [int] operand, which raises
    [OverflowError] when the integer is too large. *)
Definition to_float (x : pynum) : outcome float :=
  match x with
  | PyFloat f => Ok f
  | PyInt z =>
    match float_of_int z with
    | S754_infinity _ => Raise OverflowError
    | f => Ok f
    end
  end.

Definition py_add (x y : pynum) : outcome pynum :=
  match x, y with
  | PyInt a, PyInt b => Ok (PyInt (a + b))
  | _, _ =>
    (fx <- to_float x ;;
     fy <- to_float y ;;
     Ok (PyFloat (SFadd prec emax fx fy)))%outcome
  end.

(** ** [int(text)] *)

Section IntOfStr.

(** The decimal-digit property of the Unicode database for the code
    points from U+007F on, which [int] consults ([Py_UNICODE_TODECIMAL]);
    the table belongs to the interpreter, not to the program. *)
Variable unicode_decimal : N -> option N.

(** First pass of [int(text)]: white space beyond ASCII becomes a
    blank, decimal digits of other scripts become ASCII digits, and any
    other code point beyond ASCII makes the text invalid. *)
Fixpoint to_ascii_decimal (s : pystr) : option pystr :=
  match s with
  | [] => Some []
  | c :: r =>
    if (c <? 127)%N then option_map (cons c) (to_ascii_decimal r)
    else if isspace c then option_map (cons 32%N) (to_ascii_decimal r)
    else match unicode_decimal c with
         | Some d => option_map (cons (48 + d)%N) (to_ascii_decimal r)
         | None => None
         end
  end.

(** White space of the second pass ([Py_ISSPACE]). *)
Definition ascii_space (c : N) : bool :=
  ((9 <=? c) && (c <=? 13) || (c =? 32))%N.

Fixpoint skip_spaces (s : pystr) : pystr :=
  match s with
  | [] => []
  | c :: r => if ascii_space c then skip_spaces r else s
  end.

Definition digit_val (c : N) : option Z :=
  if ((48 <=? c) && (c <=? 57))%N then Some (Z.of_N c - 48) else None.

Definition UNDERSCORE : N := 95.

(** The most digits [int] converts (the interpreter's default
    [sys.int_max_str_digits]); a longer number is a [ValueError]. *)
Definition int_max_str_digits : Z := 4300.

(** Digits in base ten, single underscores allowed between two digits.
    Returns the value, the number of digits read added to [count], and
    the text left over. *)
Fixpoint parse_digits (acc : Z) (count : Z) (after_underscore : bool) (s : pystr)
  : option (Z * Z * pystr) :=
  match s with
  | [] => if after_underscore then None else Some (acc, count, [])
  | c :: r =>
    match digit_val c with
    | Some d => parse_digits (10 * acc + d) (count + 1) false r
    | None =>
      if (c =? UNDERSCORE)%N
      then (if after_underscore then None else parse_digits acc count true r)
      else if after_underscore then None else Some (acc, count, s)
    end
  end.

Definition parse_int_ascii (s : pystr) : option Z :=
  let s1 := skip_spaces s in
  let '(neg, s2) :=
    match s1 with
    | 43%N :: r => (false, r)
    | 45%N :: r => (true, r)
    | _ => (false, s1)
    end in
  match s2 with
  | [] => None
  | c :: _ =>
    match digit_val c with
    | None => None
    | Some _ =>
      match parse_digits 0 0 false s2 with
      | None => None
      | Some (v, count, rest) =>
        if int_max_str_digits <? count then None
        else
          match skip_spaces rest with
          | [] => Some (if neg then - v else v)
          | _ :: _ => None
          end
      end
    end
  end.

(** [int(s)] for a [str]: the integer, or [ValueError]. *)
Definition py_int (s : pystr) : outcome Z :=
  match to_ascii_decimal s with
  | None => Raise ValueError
  | Some a =>
    match parse_int_ascii a with
    | None => Raise ValueError
    | Some z => Ok z
    end
  end.

End IntOfStr.

(** ** Calendar dates *)

(** A [datetime.date]. *)
Record date := mkDate { year : Z; month : Z; day : Z }.

(** [calendar.isleap]. *)
Definition isleap (y : Z) : bool :=
  (y mod 4 =? 0) && (negb (y mod 100 =? 0) || (y mod 400 =? 0)).

(** [calendar.mdays]. *)
Definition mdays (m : Z) : Z :=
  nth (Z.to_nat m) [0; 31; 28; 31; 30; 31; 30; 31; 31; 30; 31; 30; 31] 0.

Definition days_in_month (y m : Z) : Z :=
  mdays m + (if (m =? 2) && isleap y then 1 else 0).

(** [calendar.monthrange(y, m)[1]]. *)
Definition monthrange (y m : Z) : outcome Z :=
  if (1 <=? m) && (m <=? 12) then Ok (days_in_month y m)
  else Raise IllegalMonthError.

(** An integer that fits the C [int] the constructor [date] converts
    its arguments to. *)
Definition fits_c_int (z : Z) : bool :=
  (-2147483648 <=? z) && (z <=? 2147483647).

(** The constructor [date(y, m, d)]: [OverflowError] when an argument
    does not fit a C [int], then the range checks. *)
Definition new_date (y m d : Z) : outcome date :=
  if negb (fits_c_int y && fits_c_int m && fits_c_int d) then Raise OverflowError
  else if negb ((1 <=? y) && (y <=? 9999)) then Raise ValueError
  else if negb ((1 <=? m) && (m <=? 12)) then Raise ValueError
  else if negb ((1 <=? d) && (d <=? days_in_month y m)) then Raise ValueError
  else Ok (mkDate y m d).

Definition str_Z_pad (width : nat) (z : Z) : pystr := zfill width (str_N (Z.to_N z)).

(** [str(d)], the ISO form [YYYY-MM-DD]. *)
Definition str_date (d : date) : pystr :=
  str_Z_pad 4 (year d) ++ DASH :: str_Z_pad 2 (month d) ++ DASH :: str_Z_pad 2 (day d).

(** [d.strftime("%d/%m/%Y")].  The year is written as the C library
    writes it, without padding; for the years 1000 to 9999 every
    platform gives these four digits. *)
Definition strftime_dmY (d : date) : pystr :=
  str_Z_pad 2 (day d) ++ SLASH :: str_Z_pad 2 (month d) ++ SLASH :: str_int (year d).

(** ** The store

    The three tables of the backup that the statement reads, each with
    the columns it names.  Columns hold values of the type the program
    expects of them (no NULL). *)

Record ZASSET_row := mkAsset {
  a_ZUID : pystr;
  a_ZNICNAME : pystr
}.

Record ZCATEGORY_row := mkCategory {
  c_ZUID : pystr;
  c_ZNAME : pystr
}.

Record ZINOUTCOME_row := mkInOutcome {
  z_ZDATE : float;
  z_ZTXDATESTR : pystr;
  z_ZCONTENT : pystr;
  z_ZAMOUNT : pynum;
  z_ZISDEL : Z;
  z_ZDO_TYPE : Z;
  z_ZASSETUID : pystr;
  z_ZCATEGORYUID : pystr
}.

Record store := mkStore {
  ZASSET : list ZASSET_row;
  ZCATEGORY : list ZCATEGORY_row;
  ZINOUTCOME : list ZINOUTCOME_row
}.

(** A row of the result:
    [(zdate, ztxdatestr, zname, zcontent, zamount, znicname)]. *)
Definition transaction : Type := float * pystr * pystr * pystr * pynum * pystr.

(** The statement [getQueryStatement] writes is fixed but for the two
    date texts placed between quotation marks; it is kept as these two
    texts, and [statement_text] is the string the program builds. *)
Record statement := mkStatement {
  between_lo : pystr;
  between_hi : pystr
}.

Definition statement_text (st : statement) : pystr :=
  py "SELECT z.zdate, z.ztxdatestr, c.zname, z.zcontent, z.zamount, a.znicname "
  ++ py "FROM ZASSET a, ZCATEGORY c, ZINOUTCOME z "
  ++ py "WHERE z.ztxdatestr "
  ++ py "BETWEEN " ++ 34%N :: between_lo st ++ 34%N :: py " AND "
  ++ 34%N :: between_hi st ++ 34%N :: py " "
  ++ py "AND z.zisdel = 0 "
  ++ py "AND z.zdo_type = 1 "
  ++ py "AND z.ZASSETUID = a.ZUID "
  ++ py "AND z.ZCATEGORYUID = c.ZUID "
  ++ py "ORDER BY z.zdate ASC".

(** Comparison of two TEXT values (byte order of the UTF-8 encodings,
    which is the order of the code points). *)
Fixpoint text_leb (a b : pystr) : bool :=
  match a, b with
  | [], _ => true
  | _ :: _, [] => false
  | x :: a', y :: b' =>
    if (x <? y)%N then true else if (y <? x)%N then false else text_leb a' b'
  end.


(** A date text can be interpolated between quotation marks without
    changing the statement when it holds no quotation mark (and nothing
    the driver refuses to send: NUL or a lone surrogate) and cannot be
    taken for a column, which SQLite prefers for a double-quoted token:
    the columns of the backup, a Core Data store, all begin with Z. *)
Definition plain_text (s : pystr) : bool :=
  forallb (fun c => negb ((c =? 34) || (c =? 0)
                          || (55296 <=? c) && (c <=? 57343))%N) s
  && match s with
     | c :: _ => negb ((c =? 90) || (c =? 122))%N
     | [] => true
     end.

(** The WHERE clause on one combination of rows. *)
Definition where_clause (st : statement)
  (a : ZASSET_row) (c : ZCATEGORY_row) (z : ZINOUTCOME_row) : bool :=
  (text_leb (between_lo st) (z_ZTXDATESTR z)
   && text_leb (z_ZTXDATESTR z) (between_hi st))
  && (z_ZISDEL z =? 0)
  && (z_ZDO_TYPE z =? 1)
  && str_eqb (z_ZASSETUID z) (a_ZUID a)
  && str_eqb (z_ZCATEGORYUID z) (c_ZUID c).

Definition select_row (a : ZASSET_row) (c : ZCATEGORY_row) (z : ZINOUTCOME_row)
  : transaction :=
  (z_ZDATE z, z_ZTXDATESTR z, c_ZNAME c, z_ZCONTENT z, z_ZAMOUNT z, a_ZNICNAME a).

Definition zdate_of (t : transaction) : float :=
  let '(zdate, _, _, _, _, _) := t in zdate.

(** ORDER BY z.zdate ASC, as a stable insertion sort (the order SQLite
    gives to rows of equal [zdate] is not fixed by the statement). *)
Fixpoint insert_by_zdate (t : transaction) (l : list transaction) : list transaction :=
  match l with
  | [] => [t]
  | u :: l' =>
    if SFltb (zdate_of t) (zdate_of u) then t :: l
    else u :: insert_by_zdate t l'
  end.

Definition order_by_zdate (l : list transaction) : list transaction :=
  fold_left (fun acc t => insert_by_zdate t acc) l [].

(** [cursor.execute(statement)]: the rows of the join that satisfy the
    WHERE clause, in ascending order of [zdate]. *)
Definition execute (db : store) (st : statement) : outcome (list transaction) :=
  if plain_text (between_lo st) && plain_text (between_hi st) then
    Ok (order_by_zdate
          (flat_map (fun a =>
             flat_map (fun c =>
               flat_map (fun z =>
                 if where_clause st a c z then [select_row a c z] else [])
               (ZINOUTCOME db))
             (ZCATEGORY db))
          (ZASSET db)))
  else Raise OutOfModel.

(** ** The query object *)

(** A value held by [startDate] or [endDate]: [None], a
    [datetime.date] (set by [setMonth] and by the defaults), or the
    text of a command-line option (set by the script). *)
Inductive pyval :=
| VNone
| VDate (d : date)
| VStr (s : pystr).

(** [str(v)]. *)
Definition str_val (v : pyval) : pystr :=
  match v with
  | VNone => py "None"
  | VDate d => str_date d
  | VStr s => s
  end.

(** [v.year] and [v.month]: only a date has them. *)
Definition attr_year (v : pyval) : outcome Z :=
  match v with
  | VDate d => Ok (year d)
  | _ => Raise AttributeError
  end.

Definition attr_month (v : pyval) : outcome Z :=
  match v with
  | VDate d => Ok (month d)
  | _ => Raise AttributeError
  end.

(** The attributes of a [MoneyManagerQuery] (the connection [dbCon] is
    the store, a parameter of the run). *)
Record MoneyManagerQuery := mkQuery {
  dbName : pystr;
  queryStatement : option statement;
  queryResult : list (list pystr);
  startDate : pyval;
  endDate : pyval;
  totalAmount : pynum;
  debugLevel : Z
}.

(** What the program prints: a line of text, or the [repr] of a row of
    the result (debug level 1). *)
Inductive output :=
| Line (text : pystr)
| ReprOf (t : transaction).

(** The state a method runs in: the object and the standard output so
    far. *)
Record process := mkProcess {
  self : MoneyManagerQuery;
  stdout : list output
}.

(** A method: from a state to a result, or an exception, and the state
    left behind. *)
Definition M (A : Type) : Type := process -> outcome A * process.

Definition ret {A} (a : A) : M A := fun p => (Ok a, p).

Definition bind {A B} (m : M A) (f : A -> M B) : M B :=
  fun p =>
    match m p with
    | (Ok a, p') => f a p'
    | (Raise e, p') => (Raise e, p')
    end.

Definition lift {A} (o : outcome A) : M A := fun p => (o, p).

Definition get_self : M MoneyManagerQuery := fun p => (Ok (self p), p).

Definition set_self (f : MoneyManagerQuery -> MoneyManagerQuery) : M unit :=
  fun p => (Ok tt, mkProcess (f (self p)) (stdout p)).

Definition print (o : output) : M unit :=
  fun p => (Ok tt, mkProcess (self p) (stdout p ++ [o])).

Declare Scope method_scope.
Delimit Scope method_scope with method.
Notation "x <- c ;; k" := (bind c (fun x => k))
  (at level 61, c at next level, right associativity) : method_scope.
Notation "c ;; k" := (bind c (fun _ => k))
  (at level 61, right associativity) : method_scope.
Local Open Scope method_scope.

Definition with_queryStatement (v : option statement) (q : MoneyManagerQuery) :=
  mkQuery (dbName q) v (queryResult q) (startDate q) (endDate q)
          (totalAmount q) (debugLevel q).

Definition with_startDate (v : pyval) (q : MoneyManagerQuery) :=
  mkQuery (dbName q) (queryStatement q) (queryResult q) v (endDate q)
          (totalAmount q) (debugLevel q).

Definition with_endDate (v : pyval) (q : MoneyManagerQuery) :=
  mkQuery (dbName q) (queryStatement q) (queryResult q) (startDate q) v
          (totalAmount q) (debugLevel q).

Definition with_totalAmount (v : pynum) (q : MoneyManagerQuery) :=
  mkQuery (dbName q) (queryStatement q) (queryResult q) (startDate q) (endDate q)
          v (debugLevel q).

(** [MoneyManagerQuery(dbFilePath, debugLevel)]. *)
Definition __init__ (dbFilePath : pystr) (debugLevel : Z) : MoneyManagerQuery :=
  mkQuery dbFilePath None [] VNone VNone (PyInt 0) debugLevel.

(** ** The methods *)

(** The table of [__monthStrToNum]. *)
Definition month_table : list (string * Z) :=
  [ ("jan", 1); ("january", 1); ("ene", 1); ("enero", 1);
    ("feb", 2); ("february", 2); ("febrero", 2);
    ("mar", 3); ("march", 3); ("marzo", 3);
    ("apr", 4); ("april", 4); ("abr", 4); ("abril", 4);
    ("may", 5); ("mayo", 5);
    ("jun", 6); ("june", 6); ("junio", 6);
    ("jul", 7); ("july", 7); ("julio", 7);
    ("aug", 8); ("august", 8); ("ago", 8); ("agosto", 8);
    ("sep", 9); ("september", 9); ("septiembre", 9);
    ("oct", 10); ("october", 10); ("octubre", 10);
    ("nov", 11); ("november", 11); ("noviembre", 11);
    ("dec", 12); ("december", 12); ("dic", 12); ("diciembre", 12) ]%string.

(** [table.get(key, default)]. *)
Fixpoint dict_get (table : list (string * Z)) (key : pystr) (default : Z) : Z :=
  match table with
  | [] => default
  | (k, v) :: rest => if str_eqb (py k) key then v else dict_get rest key default
  end.

Definition __monthStrToNum (monthStr : pystr) : Z :=
  dict_get month_table (lower monthStr) 0.

Definition processCategory (category : pystr) : outcome pystr :=
  if find SLASH category >=? 0 then
    match nth_error (split SLASH category) 1 with
    | Some retVal => Ok retVal
    | None => Raise IndexError
    end
  else Ok category.

(** The part of [processAmount] after [str(amount)]. *)
Definition processAmount_str (text : pystr) : outcome pystr :=
  match firstn 2 (split DOT text) with
  | [amt_integer; amt_cents] =>
    let amt_cents :=
      if (List.length amt_cents <? 2)%nat then amt_cents ++ py "0" else amt_cents in
    Ok (join (py ",") [amt_integer; amt_cents])
  | _ => Raise ValueError
  end.

Definition processAmount (amount : pynum) : outcome pystr :=
  processAmount_str (str_num amount).

Definition processPaymentMethod (pm : pystr) : M pystr :=
  let pm := strip pm in
  q <- get_self ;;
  (if debugLevel q >=? 2
   then print (Line (py "pay mehtod: '" ++ pm ++ py "'"))
   else ret tt) ;;
  ret (if str_eqb pm (py "Tickets") then py "Ti"
       else if str_eqb pm (py "Transferencia") then py "T"
       else if str_eqb pm (py "Efectivo") then py "E"
       else if str_eqb pm (py "T. Débito") then py "TD"
       else if str_eqb pm (py "T. Crédito") then py "TC"
       else if str_eqb pm (py "PayPal") then py "P"
       else py "INVALID").

Definition processName (tr_name : pystr) : pystr := tr_name.

Definition setStartDate (v : pyval) : M unit := set_self (with_startDate v).

Definition setEndDate (v : pyval) : M unit := set_self (with_endDate v).

Section Run.

(** The interpreter's table of decimal digits (see [py_int]), the
    instant [datetime.now()] returns during the run (only its year and
    month are read), and the store behind the connection. *)
Variable unicode_decimal : N -> option N.
Variable now : date.
Variable db : store.

Definition __parseMonth (monthStr : pystr) : Z :=
  let month :=
    match py_int unicode_decimal monthStr with
    | Ok m => if (m <? 1) || (m >? 12) then month now else m
    | Raise _ => 0
    end in
  if month =? 0 then __monthStrToNum monthStr else month.

Definition getStartDate : M pyval :=
  q <- get_self ;;
  (match startDate q with
   | VNone =>
     d <- lift (if month now =? 1
                then new_date (year now - 1) 12 1
                else new_date (year now) (month now - 1) 1) ;;
     setStartDate (VDate d)
   | _ => ret tt
   end) ;;
  q <- get_self ;;
  ret (startDate q).

Definition getEndDate : M pyval :=
  q <- get_self ;;
  (match endDate q with
   | VNone =>
     s1 <- getStartDate ;; y1 <- lift (attr_year s1) ;;
     s2 <- getStartDate ;; m1 <- lift (attr_month s2) ;;
     numberOfDaysInMonth <- lift (monthrange y1 m1) ;;
     s3 <- getStartDate ;; y2 <- lift (attr_year s3) ;;
     s4 <- getStartDate ;; m2 <- lift (attr_month s4) ;;
     d <- lift (new_date y2 m2 numberOfDaysInMonth) ;;
     setEndDate (VDate d)
   | _ => ret tt
   end) ;;
  q <- get_self ;;
  ret (endDate q).

Definition setMonth (monthStr : pystr) : M unit :=
  let month := __parseMonth monthStr in
  if negb (month =? 0) then
    endDay <- lift (monthrange (year now) month) ;;
    d1 <- lift (new_date (year now) month 1) ;;
    setStartDate (VDate d1) ;;
    d2 <- lift (new_date (year now) month endDay) ;;
    setEndDate (VDate d2)
  else
    setStartDate VNone ;;
    setEndDate VNone.

Definition getQueryStatement : M statement :=
  q <- get_self ;;
  match queryStatement q with
  | Some st => ret st
  | None =>
    s <- getStartDate ;;
    let localStartDate := str_val s in
    e <- getEndDate ;;
    let localEndDate := str_val e in
    (if debugLevel q >=? 1
     then print (Line (py "Date range: " ++ localStartDate ++ py " - " ++ localEndDate))
     else ret tt) ;;
    let st := mkStatement localStartDate localEndDate in
    set_self (with_queryStatement (Some st)) ;;
    ret st
  end.

Definition processDate (strDate : pystr) : outcome pystr :=
  match split DASH strDate with
  | [y; m; d] =>
    (yi <- py_int unicode_decimal y ;;
     mi <- py_int unicode_decimal m ;;
     di <- py_int unicode_decimal d ;;
     dt <- new_date yi mi di ;;
     Ok (strftime_dmY dt))%outcome
  | _ => Raise ValueError
  end.

(** The body of the loop of [getResult] for one row. *)
Definition getResult_step (result : list (list pystr)) (t : transaction)
  : M (list (list pystr)) :=
  q <- get_self ;;
  (if debugLevel q >=? 1 then print (ReprOf t) else ret tt) ;;
  let '(tr_cocoa_timestamp, tr_date, tr_category, tr_name, tr_amount, tr_pay_method) := t in
  c1 <- lift (processDate tr_date) ;;
  c2 <- lift (processCategory tr_category) ;;
  let c3 := processName tr_name in
  c4 <- lift (processAmount tr_amount) ;;
  c5 <- processPaymentMethod tr_pay_method ;;
  let row := [c1; c2; c3; c4; c5] in
  q <- get_self ;;
  total <- lift (py_add (totalAmount q) tr_amount) ;;
  set_self (with_totalAmount total) ;;
  ret (result ++ [row]).

Fixpoint for_each {A B} (body : A -> B -> M A) (acc : A) (l : list B) : M A :=
  match l with
  | [] => ret acc
  | x :: l' => acc' <- body acc x ;; for_each body acc' l'
  end.

Definition getResult : M (list (list pystr)) :=
  st <- getQueryStatement ;;
  rows <- lift (execute db st) ;;
  for_each getResult_step [] rows.

Definition item (row : list pystr) (i : nat) : outcome pystr :=
  match nth_error row i with
  | Some x => Ok x
  | None => Raise IndexError
  end.

Definition toString_step (retVal : pystr) (row : list pystr) : M pystr :=
  retVal <- for_each (fun acc i => x <- lift (item row i) ;; ret (acc ++ x ++ py ";"))
                     retVal (seq 0 4) ;;
  x <- lift (item row 4) ;;
  ret (retVal ++ x ++ [10%N]).

Definition header : pystr := py "fecha;categoría;comentario;importe;forma pago" ++ [10%N].

Definition toString : M pystr :=
  let retVal := header in
  result <- getResult ;;
  retVal <- for_each toString_step retVal result ;;
  q <- get_self ;;
  ret (retVal ++ py "Total: " ++ str_num (round2 (totalAmount q))).

Definition toCSV : M pystr := toString.

(** The command line, as [argparse] hands it over. *)
Record arguments := mkArgs {
  sqlite3_file : pystr;
  arg_start : option pystr;
  arg_end : option pystr;
  arg_month : option pystr;
  arg_debug : Z
}.

Definition val_of_arg (a : option pystr) : pyval :=
  match a with
  | Some s => VStr s
  | None => VNone
  end.

(** The script, first part: the date options are handed to the query;
    a month takes precedence over the other two. *)
Definition configure (args : arguments) : M unit :=
  match arg_month args with
  | Some m => setMonth m
  | None => setStartDate (val_of_arg (arg_start args)) ;;
            setEndDate (val_of_arg (arg_end args))
  end.

(** The script, second part: build the report and print it.  The value
    returned is the text printed. *)
Definition script (args : arguments) : M pystr :=
  configure args ;;
  result <- toCSV ;;
  print (Line result) ;;
  ret result.

Definition main (args : arguments) : outcome pystr * process :=
  script args (mkProcess (__init__ (sqlite3_file args) (arg_debug args)) []).

End Run.

(** ** Sample data *)

(** The float written [p/q] as a decimal literal, e.g. [12.345]. *)
Definition lit (p q : positive) : pynum := PyFloat (float_of_ratio false p q).

(** A store with one expense that is not deleted: 2024-03-15,
    category "Ocio/Cine", 8.5, paid with "PayPal", comment "Movie". *)
Definition cine_store : store :=
  mkStore
    [ mkAsset (py "asset-1") (py "PayPal") ]
    [ mkCategory (py "category-1") (py "Ocio/Cine") ]
    [ mkInOutcome (float_of_int 732196800) (py "2024-03-15") (py "Movie")
                  (lit 85 10) 0 1 (py "asset-1") (py "category-1") ].

Definition cine_report : pystr :=
  py "fecha;categoría;comentario;importe;forma pago" ++ 10%N ::
  py "15/03/2024;Cine;Movie;8,50;P" ++ 10%N ::
  py "Total: 8.5".

(** An interpreter table without digits beyond ASCII, for closed runs. *)
Definition ascii_digits_only : N -> option N := fun _ => None.

(** The payment methods the program knows, with their codes. *)
Definition payment_codes : list (string * string) :=
  [ ("Efectivo", "E"); ("Transferencia", "T"); ("T. Crédito", "TC");
    ("T. Débito", "TD"); ("Tickets", "Ti"); ("PayPal", "P") ]%string.

(** The fractional part as [processAmount] writes it: a part shorter
    than two characters gets one trailing zero, a longer one is kept. *)
Definition padded_cents (cents : pystr) : pystr :=
  if (List.length cents <? 2)%nat then cents ++ py "0" else cents.

(** The month before [now], as year and month. *)
Definition previous_month (now : date) : Z * Z :=
  if month now =? 1 then (year now - 1, 12) else (year now, month now - 1).

(** A clock that [datetime.now()] can show, with a month before it
    that [datetime.date] can hold (the year 1 has no month before
    January). *)
Definition clock_ok (now : date) : Prop :=
  1 <= year now <= 9999 /\ 1 <= month now <= 12
  /\ (1 < year now \/ 1 < month now).

(** The Gregorian length of a month, written out. *)
Definition gregorian_length (y m : Z) : Z :=
  if (m =? 2) then
    (if (y mod 400 =? 0) then 29
     else if (y mod 100 =? 0) then 28
     else if (y mod 4 =? 0) then 29 else 28)
  else if (m =? 4) || (m =? 6) || (m =? 9) || (m =? 11) then 30
  else 31.

(** A string with white space at neither end. *)
Definition trimmed (s : pystr) : Prop :=
  (forall c, hd_error s = Some c -> isspace c = false)
  /\ (forall c, hd_error (List.rev s) = Some c -> isspace c = false).

(** A method that leaves the running total as it found it, whatever
    its outcome. *)
Definition keeps_total {A} (m : M A) : Prop :=
  forall p, totalAmount (self (snd (m p))) = totalAmount (self p).

(** A method that leaves an observation of the state as it found it,
    whatever its outcome. *)
Definition preserves {A X} (obs : process -> X) (m : M A) : Prop :=
  forall p, obs (snd (m p)) = obs p.

(** The cached statement of the object. *)
Definition cached_statement (p : process) : option statement :=
  queryStatement (self p).

(** The attributes no method assigns after the constructor. *)
Definition constants (p : process) : pystr * list (list pystr) * Z :=
  (dbName (self p), queryResult (self p), debugLevel (self p)).

(** A method that, run at a debug level below 1, prints nothing and
    leaves the debug level as it is. *)
Definition silent {A} (m : M A) : Prop :=
  forall p, debugLevel (self p) < 1 ->
            debugLevel (self (snd (m p))) = debugLevel (self p)
            /\ stdout (snd (m p)) = stdout p.

(** The number a text of decimal digits writes, read from the left
    with [acc] for the digits already read. *)
Definition dec_value (acc : Z) (s : pystr) : Z :=
  fold_left (fun a c => 10 * a + (Z.of_N c - 48)) s acc.

Definition is_digit (c : N) : Prop := (48 <= c <= 57)%N.

(** A date that the constructor [date] accepts. *)
Definition valid_date (d : date) : Prop :=
  new_date (year d) (month d) (day d) = Ok d.

(** The code [processPaymentMethod] returns for a name. *)
Definition payment_code (pm : pystr) : pystr :=
  let pm := strip pm in
  if str_eqb pm (py "Tickets") then py "Ti"
  else if str_eqb pm (py "Transferencia") then py "T"
  else if str_eqb pm (py "Efectivo") then py "E"
  else if str_eqb pm (py "T. Débito") then py "TD"
  else if str_eqb pm (py "T. Crédito") then py "TC"
  else if str_eqb pm (py "PayPal") then py "P"
  else py "INVALID".

(** The five fields [getResult] makes of a row of the result, when
    every transform succeeds. *)
Definition row_of (unicode_decimal : N -> option N) (t : transaction)
  : outcome (list pystr) :=
  let '(_, tr_date, tr_category, tr_name, tr_amount, tr_pay_method) := t in
  (c1 <- processDate unicode_decimal tr_date ;;
   c2 <- processCategory tr_category ;;
   c4 <- processAmount tr_amount ;;
   Ok [c1; c2; processName tr_name; c4; payment_code tr_pay_method])%outcome.

Definition amount_of (t : transaction) : pynum :=
  let '(_, _, _, _, tr_amount, _) := t in tr_amount.

(** The running total: [acc + x1 + x2 + ...], added from the left. *)
Fixpoint sum_from (acc : pynum) (l : list pynum) : outcome pynum :=
  match l with
  | [] => Ok acc
  | x :: l' => (a <- py_add acc x ;; sum_from a l')%outcome
  end.

(** A line of the report: the fields joined by semicolons. *)
Definition report_line (row : list pystr) : pystr :=
  join (py ";") row ++ [10%N].

(** A store with two expenses, entered in the reverse order of their
    dates, an income and a deleted expense. *)
Definition house_store : store :=
  mkStore
    [ mkAsset (py "a1") (py " Efectivo "); mkAsset (py "a2") (py "Bitcoin") ]
    [ mkCategory (py "c1") (py "Casa/Luz"); mkCategory (py "c2") (py "Comida") ]
    [ mkInOutcome (float_of_int 732900000) (py "2024-03-20") (py "Pan")
                  (lit 1234 100) 0 1 (py "a2") (py "c2");
      mkInOutcome (float_of_int 732100000) (py "2024-03-02") (py "Factura")
                  (lit 403 10) 0 1 (py "a1") (py "c1");
      mkInOutcome (float_of_int 732500000) (py "2024-03-10") (py "Sueldo")
                  (lit 1000 1) 0 0 (py "a1") (py "c2");
      mkInOutcome (float_of_int 732600000) (py "2024-03-11") (py "Error")
                  (lit 5 1) 1 1 (py "a1") (py "c2") ].

Definition house_report : pystr :=
  py "fecha;categoría;comentario;importe;forma pago" ++ 10%N ::
  py "02/03/2024;Luz;Factura;40,30;E" ++ 10%N ::
  py "20/03/2024;Comida;Pan;12,34;INVALID" ++ 10%N ::
  py "Total: 52.64".

(** Two objects that differ at most in their debug level. *)
Definition same_object (q q' : MoneyManagerQuery) : Prop :=
  dbName q = dbName q' /\ queryStatement q = queryStatement q'
  /\ queryResult q = queryResult q' /\ startDate q = startDate q'
  /\ endDate q = endDate q' /\ totalAmount q = totalAmount q'.

(** Two methods that, run on objects differing at most in their debug
    level, end alike: same result or same exception, and objects that
    again differ at most in their debug level. *)
Definition alike {A} (m m' : M A) : Prop :=
  forall p p', same_object (self p) (self p') ->
               fst (m p) = fst (m' p')
               /\ same_object (self (snd (m p))) (self (snd (m' p'))).

(** Two methods that, run on objects with the same running total, end
    alike: same result or same exception, and again the same running
    total.  The objects may differ in everything else. *)
Definition total_alike {A} (m m' : M A) : Prop :=
  forall p p', totalAmount (self p) = totalAmount (self p') ->
               fst (m p) = fst (m' p')
               /\ totalAmount (self (snd (m p))) = totalAmount (self (snd (m' p'))).

(** The year and month a run reports on when a month is named, or when
    no date option is given at all.  A token that [int] reads as a number
    from 1 to 12 names that month of the current year, and any other
    number the current month; a token that is not a number names the
    month the table gives for it; a token that names nothing, like no
    option at all, stands for the month before [now]. *)
Definition reported_month (ud : N -> option N) (now : date) (args : arguments)
  : Z * Z :=
  match arg_month args with
  | None => previous_month now
  | Some s =>
    match py_int ud s with
    | Ok n => if (1 <=? n) && (n <=? 12) then (year now, n)
              else (year now, month now)
    | Raise _ =>
      match dict_get month_table (lower s) 0 with
      | 0 => previous_month now
      | k => (year now, k)
      end
    end
  end.

(** * Properties *)

(** ** Strings *)

Lemma str_eqb_eq a b : str_eqb a b = true <-> a = b.
Proof.
  revert b; induction a as [|x a IH]; intros [|y b]; simpl; split;
    try congruence; try reflexivity.
  - intros H. apply andb_true_iff in H as [Hx Hab].
    apply N.eqb_eq in Hx. apply IH in Hab. congruence.
  - intros H. injection H as -> ->. rewrite N.eqb_refl. simpl. now apply IH.
Qed.

Lemma str_eqb_neq a b : a <> b -> str_eqb a b = false.
Proof.
  intros H. destruct (str_eqb a b) eqn:E; [|reflexivity].
  apply str_eqb_eq in E. contradiction.
Qed.

Lemma find_notin c s : ~ In c s -> find c s = -1.
Proof.
  induction s as [|x s IH]; simpl; intros H; [reflexivity|].
  destruct (N.eqb_spec x c) as [->|_]; [tauto|].
  rewrite IH by tauto. reflexivity.
Qed.

Lemma find_in c s : In c s -> 0 <= find c s.
Proof.
  induction s as [|x s IH]; simpl; intros H; [tauto|].
  destruct (N.eqb_spec x c) as [->|Hn]; [lia|].
  destruct H as [H|H]; [congruence|].
  specialize (IH H). destruct (Z.ltb_spec (find c s) 0); lia.
Qed.

Lemma split_notin c a : ~ In c a -> split c a = [a].
Proof.
  induction a as [|x a IH]; simpl; intros H; [reflexivity|].
  destruct (N.eqb_spec x c) as [->|_]; [tauto|].
  rewrite IH by tauto. reflexivity.
Qed.

Lemma split_app c a r : ~ In c a -> split c (a ++ c :: r) = a :: split c r.
Proof.
  induction a as [|x a IH]; simpl; intros H.
  - now rewrite N.eqb_refl.
  - destruct (N.eqb_spec x c) as [->|_]; [tauto|].
    rewrite IH by tauto. reflexivity.
Qed.

Lemma split_in c s : In c s -> exists a b rest, split c s = a :: b :: rest.
Proof.
  induction s as [|x s IH]; simpl; intros H; [tauto|].
  destruct (N.eqb_spec x c) as [->|Hn].
  - destruct (split c s) as [|b rest] eqn:E.
    + destruct s; simpl in E; [discriminate|].
      destruct (n =? c)%N; [discriminate|]. destruct (split c s); discriminate.
    + now exists [], b, rest.
  - destruct H as [H|H]; [congruence|].
    destruct (IH H) as (a & b & rest & ->). now exists (x :: a), b, rest.
Qed.

(** Every character of the decimal form of a natural number is a
    digit. *)
Lemma digits_of_uint_digit u c :
  In c (digits_of_uint u) -> (48 <= c <= 57)%N.
Proof.
  induction u; simpl; intros H; try tauto;
    (destruct H as [<-|H]; [lia|now apply IHu]).
Qed.

Lemma str_int_no_dot z : ~ In DOT (str_int z).
Proof.
  unfold str_int, str_N, DOT, DASH. intros H.
  destruct z as [|p|p].
  - apply digits_of_uint_digit in H; lia.
  - apply digits_of_uint_digit in H; lia.
  - destruct H as [H|H]; [discriminate|].
    apply digits_of_uint_digit in H; lia.
Qed.

(** ** The amount transform *)

Lemma processAmount_str_two_parts units cents :
  ~ In DOT units -> ~ In DOT cents ->
  processAmount_str (units ++ DOT :: cents)
  = Ok (units ++ COMMA :: padded_cents cents).
Proof.
  intros Hu Hc. unfold processAmount_str.
  rewrite split_app by assumption. rewrite split_notin by assumption.
  reflexivity.
Qed.

Lemma processAmount_str_more_parts units cents rest :
  ~ In DOT units -> ~ In DOT cents ->
  processAmount_str (units ++ DOT :: cents ++ DOT :: rest)
  = Ok (units ++ COMMA :: padded_cents cents).
Proof.
  intros Hu Hc. unfold processAmount_str.
  rewrite split_app by assumption. rewrite split_app by assumption.
  reflexivity.
Qed.

Lemma processAmount_str_no_dot text :
  ~ In DOT text -> processAmount_str text = Raise ValueError.
Proof.
  intros H. unfold processAmount_str. now rewrite split_notin.
Qed.

Lemma processAmount_str_dot text :
  In DOT text -> exists r, processAmount_str text = Ok r.
Proof.
  intros H. unfold processAmount_str.
  destruct (split_in _ _ H) as (a & b & rest & ->). simpl. eauto.
Qed.

(** C1, the claim as stated fails: the amount 12.345 is written
    ["12,345"], with all three fractional digits, not ["12,34"]. *)
Lemma C1_counterexample :
  processAmount (lit 12345 1000) = Ok (py "12,345")
  /\ processAmount (lit 12345 1000) <> Ok (py "12,34").
Proof.
  assert (E : processAmount (lit 12345 1000) = Ok (py "12,345"))
    by (vm_compute; reflexivity).
  split; [exact E|]. rewrite E. intros H. vm_compute in H. discriminate H.
Qed.

(** C1 (amended): the amount transform splits the string form of the
    amount on the decimal point, keeps the first two components, pads a
    fractional part shorter than two characters with one trailing zero
    and joins the two with a comma; a longer fractional part is kept in
    full.  So 12.3 gives ["12,30"], 12.34 gives ["12,34"] and 12.345
    gives ["12,345"]. *)
Theorem C1_processAmount units cents rest :
  ~ In DOT units -> ~ In DOT cents ->
  processAmount_str (units ++ DOT :: cents)
    = Ok (units ++ COMMA :: padded_cents cents)
  /\ processAmount_str (units ++ DOT :: cents ++ DOT :: rest)
    = Ok (units ++ COMMA :: padded_cents cents)
  /\ (List.length cents = 1%nat -> padded_cents cents = cents ++ py "0")
  /\ ((2 <= List.length cents)%nat -> padded_cents cents = cents)
  /\ processAmount (lit 123 10) = Ok (py "12,30")
  /\ processAmount (lit 1234 100) = Ok (py "12,34")
  /\ processAmount (lit 12345 1000) = Ok (py "12,345").
Proof.
  intros Hu Hc.
  split; [now apply processAmount_str_two_parts|].
  split; [now apply processAmount_str_more_parts|].
  split; [intros H; unfold padded_cents; now rewrite H|].
  split.
  { intros H. unfold padded_cents.
    destruct (Nat.ltb_spec (List.length cents) 2); [lia|reflexivity]. }
  repeat split; vm_compute; reflexivity.
Qed.

Lemma C1_processAmount_witness :
  processAmount_str (py "12.3") = Ok (py "12,30")
  /\ processAmount_str (py "12.345.6") = Ok (py "12,345").
Proof.
  assert (Hu : ~ In DOT (py "12")) by (vm_compute; intuition discriminate).
  split.
  - assert (Hc : ~ In DOT (py "3")) by (vm_compute; intuition discriminate).
    exact (proj1 (C1_processAmount (py "12") (py "3") [] Hu Hc)).
  - assert (Hc : ~ In DOT (py "345")) by (vm_compute; intuition discriminate).
    exact (proj1 (proj2 (C1_processAmount (py "12") (py "345") (py "6") Hu Hc))).
Defined.

(** C10: the amount transform is partial.  An [int] amount, whose string
    form has no decimal point, makes the two-way unpacking fail with
    [ValueError]; so does any amount whose string form has no point
    (a float printed in exponent notation, for one).  The transform
    returns exactly when the string form contains a point. *)
Theorem C10_processAmount_partial (z : Z) (text : pystr) :
  processAmount (PyInt z) = Raise ValueError
  /\ processAmount (PyInt 8) = Raise ValueError
  /\ processAmount (lit 10000000000000000 1) = Raise ValueError
  /\ (processAmount_str text = Raise ValueError <-> ~ In DOT text)
  /\ ((exists r, processAmount_str text = Ok r) <-> In DOT text).
Proof.
  split; [apply processAmount_str_no_dot, str_int_no_dot|].
  split; [vm_compute; reflexivity|].
  split; [vm_compute; reflexivity|].
  assert (D : {In DOT text} + {~ In DOT text}) by (apply in_dec, N.eq_dec).
  split; split.
  - intros E Hin. destruct (processAmount_str_dot _ Hin) as [r Hr]. congruence.
  - apply processAmount_str_no_dot.
  - intros [r Hr]. destruct D as [Hin|Hn]; [assumption|].
    rewrite processAmount_str_no_dot in Hr by assumption. discriminate.
  - apply processAmount_str_dot.
Qed.

(** ** The category transform *)

(** C2, the claim as stated fails: of a category with two separators
    only the part between them is kept, not everything after the
    first. *)
Lemma C2_counterexample :
  processCategory (py "Food/Groceries/Organic") = Ok (py "Groceries")
  /\ processCategory (py "Food/Groceries/Organic") <> Ok (py "Groceries/Organic").
Proof.
  split; [vm_compute; reflexivity|].
  intros H. vm_compute in H. discriminate H.
Qed.

(** C2 (amended): for a category with a separator the transform
    returns the part between the first ['/'] and the next one, or the
    end of the string when there is no other; this is the whole rest
    when the category has exactly one separator.  A category without
    ['/'] is returned unchanged. *)
Theorem C2_processCategory parent child rest :
  ~ In SLASH parent -> ~ In SLASH child ->
  processCategory (parent ++ SLASH :: child) = Ok child
  /\ processCategory (parent ++ SLASH :: child ++ SLASH :: rest) = Ok child
  /\ processCategory parent = Ok parent.
Proof.
  intros Hp Hc. unfold processCategory. repeat split.
  - assert (Hin : In SLASH (parent ++ SLASH :: child))
      by (apply in_or_app; right; now left).
    apply find_in in Hin.
    destruct (Z.geb_spec (find SLASH (parent ++ SLASH :: child)) 0); [|lia].
    rewrite split_app, split_notin by assumption. reflexivity.
  - assert (Hin : In SLASH (parent ++ SLASH :: child ++ SLASH :: rest))
      by (apply in_or_app; right; now left).
    apply find_in in Hin.
    destruct (Z.geb_spec (find SLASH (parent ++ SLASH :: child ++ SLASH :: rest)) 0);
      [|lia].
    rewrite split_app, split_app by assumption. reflexivity.
  - now rewrite find_notin.
Qed.

Lemma C2_processCategory_witness :
  processCategory (py "Food/Groceries") = Ok (py "Groceries")
  /\ processCategory (py "Food/Groceries/Organic") = Ok (py "Groceries")
  /\ processCategory (py "Food") = Ok (py "Food").
Proof.
  assert (Hp : ~ In SLASH (py "Food")) by (vm_compute; intuition discriminate).
  assert (Hc : ~ In SLASH (py "Groceries")) by (vm_compute; intuition discriminate).
  exact (C2_processCategory (py "Food") (py "Groceries") (py "Organic") Hp Hc).
Defined.

(** ** The payment-method transform *)

Lemma lstrip_spaces l s :
  Forall (fun c => isspace c = true) l -> lstrip (l ++ s) = lstrip s.
Proof.
  induction 1 as [|c l Hc _ IH]; simpl; [reflexivity|]. now rewrite Hc.
Qed.

Lemma lstrip_head s :
  (forall c, hd_error s = Some c -> isspace c = false) -> lstrip s = s.
Proof.
  destruct s as [|c s]; simpl; intros H; [reflexivity|].
  now rewrite (H c eq_refl).
Qed.

(** [strip] removes the white space around a trimmed text. *)
Lemma strip_spec l core r :
  Forall (fun c => isspace c = true) l ->
  Forall (fun c => isspace c = true) r ->
  trimmed core ->
  strip (l ++ core ++ r) = core.
Proof.
  intros Hl Hr [Hh Ht]. unfold strip.
  rewrite lstrip_spaces by assumption.
  destruct core as [|c core].
  - assert (E : lstrip r = []).
    { rewrite <- (app_nil_r r). now rewrite lstrip_spaces. }
    simpl. rewrite E. reflexivity.
  - rewrite (lstrip_head ((c :: core) ++ r)) by exact Hh.
    rewrite rev_app_distr.
    rewrite lstrip_spaces by (apply Forall_rev; assumption).
    rewrite (lstrip_head (List.rev (c :: core))) by exact Ht.
    apply rev_involutive.
Qed.

(** C8: the payment-method transform trims the name, looks it up in the
    fixed table and answers ["INVALID"] for every other name; it never
    raises and touches nothing but the debug output. *)
Theorem C8_processPaymentMethod (pm : pystr) (p : process) :
  exists code p',
    processPaymentMethod pm p = (Ok code, p')
    /\ self p' = self p
    /\ stdout p' = stdout p
         ++ (if debugLevel (self p) >=? 2
             then [Line (py "pay mehtod: '" ++ strip pm ++ py "'")] else [])
    /\ (forall name c, In (name, c) payment_codes ->
          strip pm = py name -> code = py c)
    /\ ((forall name c, In (name, c) payment_codes -> strip pm <> py name) ->
          code = py "INVALID")
    /\ (forall l r name c,
          In (name, c) payment_codes ->
          Forall (fun x => isspace x = true) l ->
          Forall (fun x => isspace x = true) r ->
          pm = l ++ py name ++ r -> code = py c).
Proof.
  unfold processPaymentMethod, bind, get_self, print, ret.
  set (code := if str_eqb (strip pm) (py "Tickets") then _ else _).
  assert (Htable : forall name c, In (name, c) payment_codes ->
                     strip pm = py name -> code = py c).
  { intros name c Hin E. subst code. rewrite E.
    simpl in Hin.
    repeat (destruct Hin as [Hin|Hin];
            [injection Hin as <- <-; vm_compute; reflexivity|]).
    contradiction. }
  exists code.
  exists (if debugLevel (self p) >=? 2
          then mkProcess (self p)
                 (stdout p ++ [Line (py "pay mehtod: '" ++ strip pm ++ py "'")])
          else p).
  split; [destruct (debugLevel (self p) >=? 2); reflexivity|].
  split; [destruct (debugLevel (self p) >=? 2); reflexivity|].
  split.
  { destruct (debugLevel (self p) >=? 2); simpl; [reflexivity|].
    now rewrite app_nil_r. }
  split; [exact Htable|].
  split.
  - intros Hnot. subst code.
    rewrite !str_eqb_neq; [reflexivity|..];
      (eapply (Hnot _ _); simpl; tauto).
  - intros l r name c Hin Hl Hr ->. apply (Htable name c Hin).
    apply strip_spec; try assumption.
    simpl in Hin.
    repeat (destruct Hin as [Hin|Hin];
            [injection Hin as <- <-;
             split; intros x Hx; vm_compute in Hx; injection Hx as <-;
             reflexivity|]).
    contradiction.
Qed.

(** ** Reasoning about methods *)

Lemma bind_Ok_inv {A B} (m : M A) (f : A -> M B) p b p2 :
  bind m f p = (Ok b, p2) ->
  exists a p1, m p = (Ok a, p1) /\ f a p1 = (Ok b, p2).
Proof.
  unfold bind. destruct (m p) as [[a|e] p1]; intros H; [eauto|discriminate].
Qed.

Lemma bind_Ok {A B} (m : M A) (f : A -> M B) p a p1 :
  m p = (Ok a, p1) -> bind m f p = f a p1.
Proof. unfold bind. now intros ->. Qed.

Lemma bind_assoc {A B C} (m : M A) (f : A -> M B) (g : B -> M C) p :
  bind (bind m f) g p = bind m (fun a => bind (f a) g) p.
Proof.
  unfold bind. destruct (m p) as [[a|e] p1]; reflexivity.
Qed.

Lemma bind_congr {A B} (m m' : M A) (f : A -> M B) p :
  m p = m' p -> bind m f p = bind m' f p.
Proof. unfold bind. now intros ->. Qed.

Lemma keeps_total_ret {A} (a : A) : keeps_total (ret a).
Proof. intros p. reflexivity. Qed.

Lemma keeps_total_lift {A} (o : outcome A) : keeps_total (lift o).
Proof. intros p. reflexivity. Qed.

Lemma keeps_total_get_self : keeps_total get_self.
Proof. intros p. reflexivity. Qed.

Lemma keeps_total_print o : keeps_total (print o).
Proof. intros p. reflexivity. Qed.

Lemma keeps_total_bind {A B} (m : M A) (f : A -> M B) :
  keeps_total m -> (forall a, keeps_total (f a)) -> keeps_total (bind m f).
Proof.
  intros Hm Hf p. unfold bind. specialize (Hm p).
  destruct (m p) as [[a|e] p1]; simpl in *; [|assumption].
  now rewrite Hf.
Qed.

Lemma keeps_total_setStartDate v : keeps_total (setStartDate v).
Proof. intros p. reflexivity. Qed.

Lemma keeps_total_setEndDate v : keeps_total (setEndDate v).
Proof. intros p. reflexivity. Qed.

Lemma keeps_total_set_queryStatement v :
  keeps_total (set_self (with_queryStatement v)).
Proof. intros p. reflexivity. Qed.

Create HintDb keeps.

#[local] Hint Resolve keeps_total_ret keeps_total_lift keeps_total_get_self
  keeps_total_print keeps_total_setStartDate keeps_total_setEndDate
  keeps_total_set_queryStatement : keeps.

Ltac keeps :=
  repeat first
    [ progress auto with keeps
    | apply keeps_total_bind; [|intros ?]
    | match goal with
      | |- keeps_total (match ?x with _ => _ end) => destruct x
      | |- keeps_total (if ?x then _ else _) => destruct x
      end ].

Lemma keeps_total_getStartDate now : keeps_total (getStartDate now).
Proof. unfold getStartDate. keeps. Qed.

#[local] Hint Resolve keeps_total_getStartDate : keeps.

Lemma keeps_total_getEndDate now : keeps_total (getEndDate now).
Proof. unfold getEndDate. keeps. Qed.

#[local] Hint Resolve keeps_total_getEndDate : keeps.

Lemma keeps_total_setMonth ud now s : keeps_total (setMonth ud now s).
Proof. unfold setMonth. keeps. Qed.

Lemma keeps_total_getQueryStatement now : keeps_total (getQueryStatement now).
Proof. unfold getQueryStatement. keeps. Qed.

Lemma keeps_total_configure ud now args : keeps_total (configure ud now args).
Proof.
  unfold configure. destruct (arg_month args); [apply keeps_total_setMonth|keeps].
Qed.

(** ** Dates *)

Lemma days_in_month_gregorian y m :
  1 <= m <= 12 -> days_in_month y m = gregorian_length y m.
Proof.
  intros Hm. unfold days_in_month, gregorian_length, isleap, mdays.
  assert (C : m = 1 \/ m = 2 \/ m = 3 \/ m = 4 \/ m = 5 \/ m = 6 \/ m = 7
              \/ m = 8 \/ m = 9 \/ m = 10 \/ m = 11 \/ m = 12) by lia.
  destruct C as [->|[->|[->|[->|[->|[->|[->|[->|[->|[->|[->| ->]]]]]]]]]]];
    try reflexivity.
  simpl.
  assert (H : y mod 400 = 0 -> y mod 4 = 0).
  { intros H400. rewrite (Z.div_mod y 400) by lia. rewrite H400.
    replace (400 * (y / 400) + 0) with ((y / 400 * 100) * 4) by lia.
    apply Z.mod_mul. lia. }
  destruct (Z.eqb_spec (y mod 400) 0) as [H400|H400];
  destruct (Z.eqb_spec (y mod 100) 0) as [H100|H100];
  destruct (Z.eqb_spec (y mod 4) 0) as [H4|H4]; simpl; try reflexivity;
    exfalso; auto.
Qed.

Lemma days_in_month_bounds y m :
  1 <= m <= 12 -> 28 <= days_in_month y m <= 31.
Proof.
  intros Hm. rewrite days_in_month_gregorian by assumption.
  unfold gregorian_length.
  repeat match goal with |- context [if ?b then _ else _] => destruct b end; lia.
Qed.

Lemma fits_c_int_small z : -10000 <= z <= 10000 -> fits_c_int z = true.
Proof.
  intros H. unfold fits_c_int. apply andb_true_iff. split; apply Z.leb_le; lia.
Qed.

Lemma new_date_ok y m d :
  1 <= y <= 9999 -> 1 <= m <= 12 -> 1 <= d <= days_in_month y m ->
  new_date y m d = Ok (mkDate y m d).
Proof.
  intros Hy Hm Hd. unfold new_date.
  pose proof (days_in_month_bounds y m Hm) as Hb.
  rewrite !fits_c_int_small by lia.
  replace ((1 <=? y) && (y <=? 9999)) with true
    by (symmetry; apply andb_true_iff; split; apply Z.leb_le; lia).
  replace ((1 <=? m) && (m <=? 12)) with true
    by (symmetry; apply andb_true_iff; split; apply Z.leb_le; lia).
  replace ((1 <=? d) && (d <=? days_in_month y m)) with true
    by (symmetry; apply andb_true_iff; split; apply Z.leb_le; lia).
  reflexivity.
Qed.

Lemma new_date_after_last y m :
  1 <= y <= 9999 -> 1 <= m <= 12 ->
  new_date y m (days_in_month y m + 1) = Raise ValueError.
Proof.
  intros Hy Hm. unfold new_date.
  pose proof (days_in_month_bounds y m Hm) as Hb.
  rewrite !fits_c_int_small by lia. simpl negb. cbv iota.
  destruct (negb ((1 <=? y) && (y <=? 9999))); [reflexivity|].
  destruct (negb ((1 <=? m) && (m <=? 12))); [reflexivity|].
  replace (days_in_month y m + 1 <=? days_in_month y m) with false
    by (symmetry; apply Z.leb_gt; lia).
  rewrite andb_false_r. reflexivity.
Qed.

Lemma monthrange_ok y m : 1 <= m <= 12 -> monthrange y m = Ok (days_in_month y m).
Proof.
  intros Hm. unfold monthrange.
  replace ((1 <=? m) && (m <=? 12)) with true
    by (symmetry; apply andb_true_iff; split; apply Z.leb_le; lia).
  reflexivity.
Qed.

Lemma previous_month_ok now :
  clock_ok now ->
  1 <= fst (previous_month now) <= 9999 /\ 1 <= snd (previous_month now) <= 12.
Proof.
  intros (Hy & Hm & Hp). unfold previous_month.
  destruct (Z.eqb_spec (month now) 1); simpl; lia.
Qed.

(** ** The date range *)

Lemma getStartDate_cached now p :
  startDate (self p) <> VNone ->
  getStartDate now p = (Ok (startDate (self p)), p).
Proof.
  intros H. unfold getStartDate, bind, get_self, ret.
  destruct (startDate (self p)) eqn:E; [contradiction| |]; simpl;
    rewrite E; reflexivity.
Qed.

Lemma getStartDate_default now p :
  clock_ok now -> startDate (self p) = VNone ->
  let first := mkDate (fst (previous_month now)) (snd (previous_month now)) 1 in
  getStartDate now p
  = (Ok (VDate first),
     mkProcess (with_startDate (VDate first) (self p)) (stdout p)).
Proof.
  intros Hc Hs first. subst first.
  pose proof (previous_month_ok now Hc) as [Hy Hm].
  assert (E : (if month now =? 1
               then new_date (year now - 1) 12 1
               else new_date (year now) (month now - 1) 1)
              = Ok (mkDate (fst (previous_month now)) (snd (previous_month now)) 1)).
  { unfold previous_month in *. destruct (month now =? 1); simpl in *.
    - pose proof (days_in_month_bounds (year now - 1) 12).
      apply new_date_ok; lia.
    - pose proof (days_in_month_bounds (year now) (month now - 1)).
      apply new_date_ok; lia. }
  unfold getStartDate, bind, get_self, ret, lift, setStartDate, set_self.
  rewrite Hs, E. reflexivity.
Qed.

Lemma getEndDate_cached now p :
  endDate (self p) <> VNone ->
  getEndDate now p = (Ok (endDate (self p)), p).
Proof.
  intros H. unfold getEndDate, bind, get_self, ret.
  destruct (endDate (self p)) eqn:E; [contradiction| |]; simpl;
    rewrite E; reflexivity.
Qed.

(** The end date computed from a start date that [getStartDate]
    returns: the last day of the month of the start date. *)
Lemma getEndDate_compute now p s p1 :
  endDate (self p) = VNone ->
  getStartDate now p = (Ok (VDate s), p1) ->
  startDate (self p1) = VDate s ->
  1 <= year s <= 9999 -> 1 <= month s <= 12 ->
  let last := mkDate (year s) (month s) (days_in_month (year s) (month s)) in
  getEndDate now p
  = (Ok (VDate last), mkProcess (with_endDate (VDate last) (self p1)) (stdout p1)).
Proof.
  intros He Hg Hs Hy Hm last. subst last.
  assert (Hc : getStartDate now p1 = (Ok (VDate s), p1)).
  { rewrite getStartDate_cached; rewrite Hs; [reflexivity|discriminate]. }
  pose proof (days_in_month_bounds (year s) (month s) Hm) as Hd.
  unfold getEndDate, bind, get_self, lift, ret.
  rewrite He. cbv beta iota. rewrite Hg. cbv beta iota.
  unfold attr_year, attr_month.
  repeat first [ rewrite Hc | rewrite monthrange_ok by assumption
               | rewrite new_date_ok by lia | progress cbv beta iota ].
  reflexivity.
Qed.

(** With no dates set, [getEndDate] answers the last day of the month
    before [now], and leaves both dates set. *)
Lemma getEndDate_default now p :
  clock_ok now -> startDate (self p) = VNone -> endDate (self p) = VNone ->
  let y := fst (previous_month now) in
  let m := snd (previous_month now) in
  getEndDate now p
  = (Ok (VDate (mkDate y m (days_in_month y m))),
     mkProcess (with_endDate (VDate (mkDate y m (days_in_month y m)))
                  (with_startDate (VDate (mkDate y m 1)) (self p)))
               (stdout p)).
Proof.
  intros Hc Hs He y m.
  pose proof (previous_month_ok now Hc) as [Hy Hm].
  rewrite (getEndDate_compute now p (mkDate y m 1) _ He
             (getStartDate_default now p Hc Hs)); try assumption; reflexivity.
Qed.

Lemma getQueryStatement_default now p :
  clock_ok now ->
  startDate (self p) = VNone -> endDate (self p) = VNone ->
  queryStatement (self p) = None ->
  let y := fst (previous_month now) in
  let m := snd (previous_month now) in
  fst (getQueryStatement now p)
  = Ok (mkStatement (str_date (mkDate y m 1))
                    (str_date (mkDate y m (days_in_month y m)))).
Proof.
  intros Hc Hs He Hq y m.
  pose proof (previous_month_ok now Hc) as [Hy Hm].
  pose proof (getStartDate_default now p Hc Hs) as Hg. cbv zeta in Hg.
  fold y m in Hg.
  set (p1 := mkProcess (with_startDate (VDate (mkDate y m 1)) (self p)) (stdout p)) in *.
  assert (Hg1 : getStartDate now p1 = (Ok (VDate (mkDate y m 1)), p1)).
  { rewrite getStartDate_cached; simpl; [reflexivity|discriminate]. }
  pose proof (getEndDate_compute now p1 (mkDate y m 1) p1 He Hg1 eq_refl Hy Hm) as Hge.
  cbv zeta in Hge. simpl year in Hge. simpl month in Hge.
  unfold getQueryStatement, bind, get_self.
  rewrite Hq, Hg. cbv beta iota. rewrite Hge. cbv beta iota.
  destruct (debugLevel (self p) >=? 1); reflexivity.
Qed.

(** C5: with no start, end or month supplied the start date is the
    first day of the month before [now] (December of the year before
    when [now] is in January) and the end date is the last day of that
    month, February having 29 days in leap years. *)
Theorem C5_default_range now p :
  clock_ok now ->
  startDate (self p) = VNone -> endDate (self p) = VNone ->
  let y := fst (previous_month now) in
  let m := snd (previous_month now) in
  let first := mkDate y m 1 in
  let last := mkDate y m (gregorian_length y m) in
  fst (getStartDate now p) = Ok (VDate first)
  /\ fst (getEndDate now p) = Ok (VDate last)
  /\ fst (bind (getStartDate now)
            (fun s => bind (getEndDate now) (fun e => ret (s, e))) p)
     = Ok (VDate first, VDate last)
  /\ (queryStatement (self p) = None ->
      fst (getQueryStatement now p)
      = Ok (mkStatement (str_date first) (str_date last)))
  /\ (month now = 1 -> y = year now - 1 /\ m = 12)
  /\ (month now <> 1 -> y = year now /\ m = month now - 1)
  /\ new_date y m (day last) = Ok last
  /\ new_date y m (day last + 1) = Raise ValueError
  /\ (forall ud file dbg,
        let p0 := snd (configure ud now (mkArgs file None None None dbg)
                         (mkProcess (__init__ file dbg) [])) in
        startDate (self p0) = VNone /\ endDate (self p0) = VNone
        /\ queryStatement (self p0) = None).
Proof.
  intros Hc Hs He y m first last.
  pose proof (previous_month_ok now Hc) as [Hy Hm]. fold y m in Hy, Hm.
  assert (Hl : days_in_month y m = gregorian_length y m)
    by (apply days_in_month_gregorian; assumption).
  pose proof (days_in_month_bounds y m Hm) as Hb.
  pose proof (getStartDate_default now p Hc Hs) as Hg. cbv zeta in Hg.
  pose proof (getEndDate_default now p Hc Hs He) as Hge. cbv zeta in Hge.
  fold y m in Hg, Hge. rewrite Hl in Hge. fold first in Hg, Hge. fold last in Hge.
  split; [now rewrite Hg|].
  split; [now rewrite Hge|].
  split.
  { rewrite (bind_Ok _ _ _ _ _ Hg).
    set (p1 := mkProcess (with_startDate (VDate first) (self p)) (stdout p)).
    assert (Hg1 : getStartDate now p1 = (Ok (VDate first), p1)).
    { rewrite getStartDate_cached; simpl; [reflexivity|discriminate]. }
    pose proof (getEndDate_compute now p1 first p1 He Hg1 eq_refl Hy Hm) as H.
    cbv zeta in H. simpl year in H. simpl month in H. rewrite Hl in H.
    rewrite (bind_Ok _ _ _ _ _ H). reflexivity. }
  split.
  { intros Hq. pose proof (getQueryStatement_default now p Hc Hs He Hq) as H.
    cbv zeta in H. fold y m in H. rewrite Hl in H. exact H. }
  split.
  { intros H1. subst y m. unfold previous_month. rewrite H1. simpl. lia. }
  split.
  { intros H1. subst y m. unfold previous_month.
    destruct (Z.eqb_spec (month now) 1); [contradiction|]. simpl. lia. }
  split.
  { subst last. simpl day. rewrite <- Hl. apply new_date_ok; lia. }
  split.
  { subst last. simpl day. rewrite <- Hl. now apply new_date_after_last. }
  intros ud file dbg. cbn. repeat split.
Qed.

Lemma C5_default_range_witness :
  fst (getStartDate (mkDate 2024 3 10) (mkProcess (__init__ (py "backup") 0) []))
    = Ok (VDate (mkDate 2024 2 1))
  /\ fst (getEndDate (mkDate 2024 3 10) (mkProcess (__init__ (py "backup") 0) []))
    = Ok (VDate (mkDate 2024 2 29)).
Proof.
  assert (Hc : clock_ok (mkDate 2024 3 10)) by (unfold clock_ok; simpl; lia).
  pose proof (C5_default_range (mkDate 2024 3 10)
                (mkProcess (__init__ (py "backup") 0) []) Hc eq_refl eq_refl) as H.
  split; [exact (proj1 H)|exact (proj1 (proj2 H))].
Defined.

(** The default range in a common year, and across the turn of the
    year. *)
Example default_range_2023 :
  fst (getEndDate (mkDate 2023 3 10) (mkProcess (__init__ (py "backup") 0) []))
    = Ok (VDate (mkDate 2023 2 28))
  /\ fst (getQueryStatement (mkDate 2025 1 20)
            (mkProcess (__init__ (py "backup") 0) []))
    = Ok (mkStatement (py "2024-12-01") (py "2024-12-31")).
Proof. split; vm_compute; reflexivity. Qed.

(** ** Cached dates *)

Ltac bind_inv H :=
  repeat (apply bind_Ok_inv in H;
          let a := fresh "a" in
          let q := fresh "q" in
          let E := fresh "E" in
          destruct H as (a & q & E & H)).

Lemma getEndDate_result now p e p1 :
  getEndDate now p = (Ok e, p1) -> endDate (self p1) = e /\ e <> VNone.
Proof.
  intros H. unfold getEndDate in H.
  apply bind_Ok_inv in H. destruct H as (q0 & p0 & E0 & H).
  apply bind_Ok_inv in H. destruct H as (u & p2 & E1 & H).
  unfold bind, get_self, ret in H. injection H as <- <-.
  unfold get_self in E0. injection E0 as <- <-.
  split; [reflexivity|].
  destruct (endDate (self p)) eqn:Hend.
  - bind_inv E1. unfold setEndDate, set_self in E1. injection E1 as _ <-.
    simpl. discriminate.
  - unfold ret in E1. injection E1 as _ <-. rewrite Hend. discriminate.
  - unfold ret in E1. injection E1 as _ <-. rewrite Hend. discriminate.
Qed.

(** C6: once the end date has been computed, assigning the start date
    again does not change it: the next read of the end date returns the
    cached value and leaves the object as it is.  An assignment writes
    the one field it names. *)
Theorem C6_end_date_cached now p e p1 v :
  getEndDate now p = (Ok e, p1) ->
  let p2 := snd (setStartDate v p1) in
  let p3 := snd (setEndDate v p1) in
  getEndDate now p2 = (Ok e, p2)
  /\ self p2 = with_startDate v (self p1) /\ stdout p2 = stdout p1
  /\ startDate (self p2) = v
  /\ endDate (self p2) = endDate (self p1)
  /\ queryStatement (self p2) = queryStatement (self p1)
  /\ totalAmount (self p2) = totalAmount (self p1)
  /\ self p3 = with_endDate v (self p1) /\ stdout p3 = stdout p1
  /\ endDate (self p3) = v
  /\ startDate (self p3) = startDate (self p1)
  /\ queryStatement (self p3) = queryStatement (self p1)
  /\ totalAmount (self p3) = totalAmount (self p1).
Proof.
  intros H p2 p3. apply getEndDate_result in H as [He Hn].
  split; [|repeat split].
  rewrite getEndDate_cached; subst p2; simpl; rewrite He; [reflexivity|assumption].
Qed.

Lemma C6_end_date_cached_witness :
  let now := mkDate 2024 3 10 in
  let p1 := snd (getEndDate now (mkProcess (__init__ (py "backup") 0) [])) in
  let p2 := snd (setStartDate (VDate (mkDate 2024 3 1)) p1) in
  getEndDate now p2 = (Ok (VDate (mkDate 2024 2 29)), p2)
  /\ startDate (self p2) = VDate (mkDate 2024 3 1).
Proof.
  intros now p1 p2.
  assert (H : getEndDate now (mkProcess (__init__ (py "backup") 0) [])
              = (Ok (VDate (mkDate 2024 2 29)), p1)) by (vm_compute; reflexivity).
  pose proof (C6_end_date_cached now _ _ _ (VDate (mkDate 2024 3 1)) H) as W.
  split; [exact (proj1 W)|exact (proj1 (proj2 (proj2 (proj2 W))))].
Defined.

(** ** Month tokens *)

Lemma lower_cp_idem c : lower_cp (lower_cp c) = lower_cp c.
Proof.
  unfold lower_cp.
  destruct ((65 <=? c) && (c <=? 90))%N eqn:U.
  - apply andb_true_iff in U as [U1 U2].
    apply N.leb_le in U1. apply N.leb_le in U2.
    replace ((65 <=? c + 32) && (c + 32 <=? 90))%N with false
      by (symmetry; apply andb_false_iff; right; apply N.leb_gt; lia).
    replace (c + 32 =? 8490)%N with false
      by (symmetry; apply N.eqb_neq; lia).
    reflexivity.
  - destruct (N.eqb_spec c 8490) as [->|Hc]; [reflexivity|].
    rewrite U. now apply N.eqb_neq in Hc as ->.
Qed.

Lemma lower_idem s : lower (lower s) = lower s.
Proof.
  unfold lower. rewrite map_map. apply map_ext. intros c. apply lower_cp_idem.
Qed.

Lemma dict_get_notin table key default :
  (forall k v, In (k, v) table -> py k <> key) ->
  dict_get table key default = default.
Proof.
  induction table as [|[k v] table IH]; simpl; intros H; [reflexivity|].
  rewrite str_eqb_neq by (apply (H k v); now left).
  apply IH. intros k' v' Hin. apply (H k' v'). now right.
Qed.

(** C3: a month token is first read as an integer, and an integer
    outside 1..12 stands for the current month; a token that is not an
    integer is looked up, whatever its case, in the table of English and
    Spanish names and abbreviations; a token found in neither way gives
    0, and then the query is left without dates, so that the range of
    the previous month is used, as when no option is given. *)
Theorem C3_month_resolution ud now :
  clock_ok now ->
  (forall s n, py_int ud s = Ok n -> 1 <= n <= 12 -> __parseMonth ud now s = n)
  /\ (forall s n, py_int ud s = Ok n -> n < 1 \/ 12 < n ->
        __parseMonth ud now s = month now)
  /\ (forall s e, py_int ud s = Raise e ->
        __parseMonth ud now s = __monthStrToNum s)
  /\ (forall s t, lower s = lower t -> __monthStrToNum s = __monthStrToNum t)
  /\ (forall s, __monthStrToNum (lower s) = __monthStrToNum s)
  /\ (forall name v, In (name, v) month_table ->
        __monthStrToNum (py name) = v /\ 1 <= v <= 12)
  /\ (forall s, (forall name v, In (name, v) month_table -> lower s <> py name) ->
        __monthStrToNum s = 0)
  /\ __parseMonth ud now (py "13") = month now
  /\ __parseMonth ud now (py "Enero") = 1
  /\ __parseMonth ud now (py "jan") = 1
  /\ __parseMonth ud now (py "foo") = 0
  /\ (forall s p, __parseMonth ud now s = 0 ->
        setMonth ud now s p
        = (Ok tt, mkProcess (with_endDate VNone (with_startDate VNone (self p)))
                            (stdout p)))
  /\ (forall s p, __parseMonth ud now s = 0 -> queryStatement (self p) = None ->
        let y := fst (previous_month now) in
        let m := snd (previous_month now) in
        fst (bind (setMonth ud now s) (fun _ => getQueryStatement now) p)
        = Ok (mkStatement (str_date (mkDate y m 1))
                          (str_date (mkDate y m (gregorian_length y m)))))
  /\ (forall s db args, __parseMonth ud now s = 0 -> arg_month args = Some s ->
        main ud now db args
        = main ud now db (mkArgs (sqlite3_file args) None None None (arg_debug args))).
Proof.
  intros Hc. pose proof Hc as (Hy & Hm & _).
  assert (Hzero : forall s p, __parseMonth ud now s = 0 ->
            setMonth ud now s p
            = (Ok tt, mkProcess (with_endDate VNone (with_startDate VNone (self p)))
                                (stdout p))).
  { intros s p H. unfold setMonth. rewrite H. reflexivity. }
  split.
  { intros s n H Hn. unfold __parseMonth. rewrite H, Z.gtb_ltb.
    replace ((n <? 1) || (12 <? n)) with false
      by (symmetry; apply orb_false_iff; split; apply Z.ltb_ge; lia).
    replace (n =? 0) with false by (symmetry; apply Z.eqb_neq; lia).
    reflexivity. }
  assert (Hout : forall s n, py_int ud s = Ok n -> n < 1 \/ 12 < n ->
            __parseMonth ud now s = month now).
  { intros s n H Hn. unfold __parseMonth. rewrite H, Z.gtb_ltb.
    replace ((n <? 1) || (12 <? n)) with true.
    2:{ symmetry. apply orb_true_iff.
        destruct Hn; [left|right]; apply Z.ltb_lt; lia. }
    replace (month now =? 0) with false by (symmetry; apply Z.eqb_neq; lia).
    reflexivity. }
  split; [exact Hout|].
  split.
  { intros s e H. unfold __parseMonth. rewrite H. reflexivity. }
  split.
  { intros s t H. unfold __monthStrToNum. now rewrite H. }
  split.
  { intros s. unfold __monthStrToNum. now rewrite lower_idem. }
  split.
  { intros name v Hin. simpl in Hin.
    repeat (destruct Hin as [Hin|Hin];
            [injection Hin as <- <-; split; [vm_compute; reflexivity|lia]|]).
    contradiction. }
  split.
  { intros s H. unfold __monthStrToNum. apply dict_get_notin.
    intros k v Hin E. apply (H k v Hin). now symmetry. }
  split; [apply (Hout (py "13") 13); [reflexivity|lia]|].
  split; [vm_compute; reflexivity|].
  split; [vm_compute; reflexivity|].
  split; [vm_compute; reflexivity|].
  split; [exact Hzero|].
  split.
  { intros s p H Hq y m. rewrite (bind_Ok _ _ _ _ _ (Hzero s p H)).
    pose proof (previous_month_ok now Hc) as [_ Hpm].
    rewrite <- (days_in_month_gregorian y m) by assumption.
    apply getQueryStatement_default; try assumption; reflexivity. }
  intros s db args H Ha. unfold main, script. simpl sqlite3_file. simpl arg_debug.
  apply bind_congr. unfold configure. rewrite Ha. simpl arg_month.
  rewrite Hzero by assumption. reflexivity.
Qed.

Lemma C3_month_resolution_witness :
  __parseMonth ascii_digits_only (mkDate 2024 7 4) (py "13") = 7
  /\ __parseMonth ascii_digits_only (mkDate 2024 7 4) (py " 02 ") = 2
  /\ __parseMonth ascii_digits_only (mkDate 2024 7 4) (py "DIC") = 12
  /\ fst (bind (setMonth ascii_digits_only (mkDate 2024 7 4) (py "foo"))
               (fun _ => getQueryStatement (mkDate 2024 7 4))
               (mkProcess (__init__ (py "backup") 0) []))
     = Ok (mkStatement (py "2024-06-01") (py "2024-06-30")).
Proof.
  assert (Hc : clock_ok (mkDate 2024 7 4)) by (unfold clock_ok; simpl; lia).
  pose proof (C3_month_resolution ascii_digits_only (mkDate 2024 7 4) Hc)
    as (Hin & Hout & Hname & _ & _ & Htab & _ & _ & _ & _ & Hfoo & _ & Hdef & _).
  split; [apply (Hout (py "13") 13); [reflexivity|lia]|].
  split; [apply (Hin (py " 02 ") 2); [reflexivity|lia]|].
  split.
  - rewrite (Hname (py "DIC") ValueError) by reflexivity. reflexivity.
  - exact (Hdef (py "foo") (mkProcess (__init__ (py "backup") 0) []) Hfoo eq_refl).
Defined.

(** ** Reports *)

(** [toString], step by step: the statement, the rows, the lines. *)
Lemma toString_unfold ud now db p :
  toString ud now db p =
  match getQueryStatement now p with
  | (Ok st, p1) =>
    match execute db st with
    | Ok rows =>
      bind (for_each (getResult_step ud) [] rows)
           (fun result =>
              bind (for_each toString_step header result)
                   (fun retVal =>
                      bind get_self
                           (fun q => ret (retVal ++ py "Total: "
                                            ++ str_num (round2 (totalAmount q))))))
           p1
    | Raise e => (Raise e, p1)
    end
  | (Raise e, p1) => (Raise e, p1)
  end.
Proof.
  unfold toString, getResult, bind, lift.
  destruct (getQueryStatement now p) as [[st|e] p1]; [|reflexivity].
  destruct (execute db st) as [rows|e]; reflexivity.
Qed.

Ltac vm_step t := let v := eval vm_compute in t in change t with v.

(** C4: a store whose expenses of March 2024 are the one record of
    2024-03-15 (category "Ocio/Cine", 8.5, "PayPal", "Movie"), asked
    for the month "March" in 2024, gives exactly the report of three
    lines ending in "Total: 8.5", at every debug level and whatever
    start and end options accompany the month. *)
Theorem C4_end_to_end ud now db zdate file opt_start opt_end dbg :
  year now = 2024 ->
  execute db (mkStatement (py "2024-03-01") (py "2024-03-31"))
  = Ok [(zdate, py "2024-03-15", py "Ocio/Cine", py "Movie", lit 85 10, py "PayPal")] ->
  fst (main ud now db (mkArgs file opt_start opt_end (Some (py "March")) dbg))
  = Ok cine_report.
Proof.
  destruct now as [y m d]. simpl. intros -> H.
  let lo := eval vm_compute in (py "2024-03-01") in
  let hi := eval vm_compute in (py "2024-03-31") in
  change (py "2024-03-01") with lo in H; change (py "2024-03-31") with hi in H.
  unfold main, script, toCSV. simpl sqlite3_file. simpl arg_debug.
  unfold bind at 1.
  match goal with |- context [configure ?a ?b ?c ?p] => vm_step (configure a b c p) end.
  cbv beta iota. unfold bind at 1. rewrite toString_unfold.
  destruct dbg as [|[[k|k|]|[k|k|]|]|k];
    (match goal with |- context [getQueryStatement ?a ?p] =>
       vm_step (getQueryStatement a p) end;
     cbv beta iota; rewrite H; vm_compute; reflexivity).
Qed.

Lemma C4_end_to_end_witness :
  fst (main ascii_digits_only (mkDate 2024 7 4) cine_store
         (mkArgs (py "backup.sqlite") None None (Some (py "March")) 0))
  = Ok cine_report.
Proof.
  apply (C4_end_to_end ascii_digits_only (mkDate 2024 7 4) cine_store
           (float_of_int 732196800)).
  - reflexivity.
  - vm_compute. reflexivity.
Defined.

(** C9: when the statement of the run selects no row, the report is
    the header line followed by "Total: 0", and the script ends
    normally, having printed it. *)
Theorem C9_empty_report ud now db args st p1 :
  bind (configure ud now args) (fun _ => getQueryStatement now)
       (mkProcess (__init__ (sqlite3_file args) (arg_debug args)) [])
  = (Ok st, p1) ->
  execute db st = Ok [] ->
  main ud now db args
  = (Ok (header ++ py "Total: 0"),
     mkProcess (self p1) (stdout p1 ++ [Line (header ++ py "Total: 0")])).
Proof.
  intros Hq Hrows.
  assert (Ht : totalAmount (self p1) = PyInt 0).
  { pose proof (keeps_total_bind _ _ (keeps_total_configure ud now args)
                  (fun _ => keeps_total_getQueryStatement now)
                  (mkProcess (__init__ (sqlite3_file args) (arg_debug args)) [])) as K.
    rewrite Hq in K. exact K. }
  apply bind_Ok_inv in Hq. destruct Hq as ([] & pa & Ec & Eq).
  unfold main, script, toCSV.
  rewrite (bind_Ok _ _ _ _ _ Ec).
  unfold bind at 1. rewrite toString_unfold, Eq, Hrows.
  unfold for_each, bind, get_self, ret, print. rewrite Ht. reflexivity.
Qed.

Lemma C9_empty_report_witness :
  fst (main ascii_digits_only (mkDate 2024 3 10) cine_store
         (mkArgs (py "backup.sqlite") None None None 0))
  = Ok (header ++ py "Total: 0").
Proof.
  set (run := bind (configure ascii_digits_only (mkDate 2024 3 10)
                      (mkArgs (py "backup.sqlite") None None None 0))
                   (fun _ => getQueryStatement (mkDate 2024 3 10))
                   (mkProcess (__init__ (py "backup.sqlite") 0) [])).
  assert (Hq : run = (Ok (mkStatement (py "2024-02-01") (py "2024-02-29")), snd run))
    by (vm_compute; reflexivity).
  assert (Hrows : execute cine_store (mkStatement (py "2024-02-01") (py "2024-02-29"))
                  = Ok []) by (vm_compute; reflexivity).
  rewrite (C9_empty_report ascii_digits_only (mkDate 2024 3 10) cine_store
             (mkArgs (py "backup.sqlite") None None None 0) _ _ Hq Hrows).
  reflexivity.
Defined.

(** *** One query, two runs *)

Lemma total_alike_ret {A} (a : A) : total_alike (ret a) (ret a).
Proof. intros p p' H. now split. Qed.

Lemma total_alike_lift {A} (o : outcome A) : total_alike (lift o) (lift o).
Proof. intros p p' H. now split. Qed.

Lemma total_alike_print o : total_alike (print o) (print o).
Proof. intros p p' H. now split. Qed.

Lemma total_alike_debug_print (b b' : bool) o o' :
  total_alike (if b then print o else ret tt) (if b' then print o' else ret tt).
Proof. intros p p' H. destruct b, b'; now split. Qed.

Lemma total_alike_bind {A B} (m m' : M A) (f f' : A -> M B) :
  total_alike m m' -> (forall a, total_alike (f a) (f' a)) ->
  total_alike (bind m f) (bind m' f').
Proof.
  intros Hm Hf p p' H. destruct (Hm p p' H) as [E S]. unfold bind.
  destruct (m p) as [[a|e] p1], (m' p') as [[a'|e'] p1']; simpl in *;
    try discriminate.
  - injection E as <-. now apply Hf.
  - injection E as <-. split; [reflexivity|exact S].
Qed.

Lemma total_alike_bind_get_self {B} (f f' : MoneyManagerQuery -> M B) :
  (forall q q', totalAmount q = totalAmount q' -> total_alike (f q) (f' q')) ->
  total_alike (bind get_self f) (bind get_self f').
Proof. intros Hf p p' H. unfold bind, get_self. now apply Hf. Qed.

Lemma total_alike_set_total v :
  total_alike (set_self (with_totalAmount v)) (set_self (with_totalAmount v)).
Proof. intros p p' H. now split. Qed.

Lemma total_alike_for_each {A B} (body body' : A -> B -> M A) l :
  (forall acc x, total_alike (body acc x) (body' acc x)) ->
  forall acc, total_alike (for_each body acc l) (for_each body' acc l).
Proof.
  intros Hb. induction l as [|x l IH]; intros acc; simpl.
  - apply total_alike_ret.
  - apply total_alike_bind; [apply Hb|intros a; apply IH].
Qed.

Ltac total_alike_step :=
  first
    [ apply total_alike_ret | apply total_alike_lift | apply total_alike_print
    | apply total_alike_debug_print | apply total_alike_set_total
    | apply total_alike_bind_get_self;
      let H := fresh in intros ? ? H; rewrite <- ?H
    | apply total_alike_bind; [|intros ?]
    | apply total_alike_for_each; intros ? ?
    | match goal with
      | |- total_alike (let '(_, _) := ?x in _) (let '(_, _) := ?x in _) =>
        destruct x
      end ].

(** What [toString] does once it has the statement. *)
Lemma toString_bind ud now db p :
  toString ud now db p
  = bind (getQueryStatement now)
      (fun st =>
         bind (lift (execute db st))
           (fun rows =>
              bind (for_each (getResult_step ud) [] rows)
                (fun result =>
                   bind (for_each toString_step header result)
                     (fun retVal =>
                        bind get_self
                          (fun q => ret (retVal ++ py "Total: "
                                           ++ str_num (round2 (totalAmount q))))))))
      p.
Proof.
  unfold toString, getResult, bind, lift.
  destruct (getQueryStatement now p) as [[st|e] p1]; [|reflexivity].
  destruct (execute db st) as [rows|e]; reflexivity.
Qed.

(** The rows and the lines of a report, and its total, depend on the
    object only through the running total it starts from. *)
Lemma total_alike_report ud db st :
  total_alike
    (bind (lift (execute db st))
       (fun rows =>
          bind (for_each (getResult_step ud) [] rows)
            (fun result =>
               bind (for_each toString_step header result)
                 (fun retVal =>
                    bind get_self
                      (fun q => ret (retVal ++ py "Total: "
                                       ++ str_num (round2 (totalAmount q))))))))
    (bind (lift (execute db st))
       (fun rows =>
          bind (for_each (getResult_step ud) [] rows)
            (fun result =>
               bind (for_each toString_step header result)
                 (fun retVal =>
                    bind get_self
                      (fun q => ret (retVal ++ py "Total: "
                                       ++ str_num (round2 (totalAmount q)))))))).
Proof.
  unfold getResult_step, processPaymentMethod, toString_step.
  repeat total_alike_step.
Qed.

(** A run that ends normally has printed its report last. *)
Lemma script_prints ud now db args p report p' :
  script ud now db args p = (Ok report, p') ->
  exists out, stdout p' = out ++ [Line report].
Proof.
  unfold script. intros H.
  apply bind_Ok_inv in H as ([] & pa & _ & H).
  apply bind_Ok_inv in H as (r & pb & _ & H).
  unfold bind, print, ret in H. injection H as <- <-.
  now exists (stdout pb).
Qed.

(** C7: two runs of the script that put the same query to the same
    store give the same report, byte for byte, the "Total: " line
    included.  Each run builds its query object afresh, as the script
    does, so each starts its total from zero; the runs may be started at
    different times, with different options and debug levels, as long as
    their dates resolve to the same statement.  A run that ends normally
    has printed that report as its last output. *)
Theorem C7_same_query_same_report ud now1 now2 db args1 args2 st p1 p2 :
  bind (configure ud now1 args1) (fun _ => getQueryStatement now1)
       (mkProcess (__init__ (sqlite3_file args1) (arg_debug args1)) [])
  = (Ok st, p1) ->
  bind (configure ud now2 args2) (fun _ => getQueryStatement now2)
       (mkProcess (__init__ (sqlite3_file args2) (arg_debug args2)) [])
  = (Ok st, p2) ->
  fst (main ud now1 db args1) = fst (main ud now2 db args2)
  /\ (forall report, fst (main ud now1 db args1) = Ok report ->
        exists out1 out2,
          stdout (snd (main ud now1 db args1)) = out1 ++ [Line report]
          /\ stdout (snd (main ud now2 db args2)) = out2 ++ [Line report]).
Proof.
  intros H1 H2.
  assert (T1 : totalAmount (self p1) = PyInt 0).
  { pose proof (keeps_total_bind _ _ (keeps_total_configure ud now1 args1)
                  (fun _ => keeps_total_getQueryStatement now1)
                  (mkProcess (__init__ (sqlite3_file args1) (arg_debug args1)) []))
      as K.
    rewrite H1 in K. exact K. }
  assert (T2 : totalAmount (self p2) = PyInt 0).
  { pose proof (keeps_total_bind _ _ (keeps_total_configure ud now2 args2)
                  (fun _ => keeps_total_getQueryStatement now2)
                  (mkProcess (__init__ (sqlite3_file args2) (arg_debug args2)) []))
      as K.
    rewrite H2 in K. exact K. }
  assert (R : forall now args p,
            bind (configure ud now args) (fun _ => getQueryStatement now)
                 (mkProcess (__init__ (sqlite3_file args) (arg_debug args)) [])
            = (Ok st, p) ->
            main ud now db args
            = bind (bind (lift (execute db st))
                      (fun rows =>
                         bind (for_each (getResult_step ud) [] rows)
                           (fun result =>
                              bind (for_each toString_step header result)
                                (fun retVal =>
                                   bind get_self
                                     (fun q => ret (retVal ++ py "Total: "
                                                      ++ str_num (round2 (totalAmount q))))))))
                   (fun result => bind (print (Line result)) (fun _ => ret result))
                   p).
  { intros now args p H. unfold main, script, toCSV.
    set (p0 := mkProcess _ _) in *.
    apply bind_Ok_inv in H as ([] & pa & Ec & Eq).
    rewrite (bind_Ok _ _ _ _ _ Ec).
    rewrite (bind_congr _ _ _ pa (toString_bind ud now db pa)).
    rewrite bind_assoc. now rewrite (bind_Ok _ _ _ _ _ Eq). }
  assert (E : fst (main ud now1 db args1) = fst (main ud now2 db args2)).
  { rewrite (R _ _ _ H1), (R _ _ _ H2).
    apply (total_alike_bind _ _ _ _ (total_alike_report ud db st)).
    - intros r. apply total_alike_bind; [apply total_alike_print|intros _].
      apply total_alike_ret.
    - now rewrite T1, T2. }
  split; [exact E|].
  intros report Hr. pose proof Hr as Hr'. rewrite E in Hr'.
  unfold main in *.
  destruct (script ud now1 db args1 _) as [o1 q1] eqn:S1.
  destruct (script ud now2 db args2 _) as [o2 q2] eqn:S2.
  simpl in *. subst o1 o2.
  apply script_prints in S1 as [out1 S1]. apply script_prints in S2 as [out2 S2].
  now exists out1, out2.
Qed.

Lemma C7_same_query_same_report_witness :
  fst (main ascii_digits_only (mkDate 2024 7 4) cine_store
         (mkArgs (py "backup.sqlite") None None (Some (py "March")) 0))
  = fst (main ascii_digits_only (mkDate 2025 1 10) cine_store
           (mkArgs (py "copy.sqlite") (Some (py "2024-03-01"))
                   (Some (py "2024-03-31")) None 2)).
Proof.
  set (run1 := bind (configure ascii_digits_only (mkDate 2024 7 4)
                       (mkArgs (py "backup.sqlite") None None (Some (py "March")) 0))
                    (fun _ => getQueryStatement (mkDate 2024 7 4))
                    (mkProcess (__init__ (py "backup.sqlite") 0) [])).
  set (run2 := bind (configure ascii_digits_only (mkDate 2025 1 10)
                       (mkArgs (py "copy.sqlite") (Some (py "2024-03-01"))
                               (Some (py "2024-03-31")) None 2))
                    (fun _ => getQueryStatement (mkDate 2025 1 10))
                    (mkProcess (__init__ (py "copy.sqlite") 2) [])).
  assert (H1 : run1 = (Ok (mkStatement (py "2024-03-01") (py "2024-03-31")), snd run1))
    by (vm_compute; reflexivity).
  assert (H2 : run2 = (Ok (mkStatement (py "2024-03-01") (py "2024-03-31")), snd run2))
    by (vm_compute; reflexivity).
  exact (proj1 (C7_same_query_same_report ascii_digits_only (mkDate 2024 7 4)
                  (mkDate 2025 1 10) cine_store _ _ _ _ _ H1 H2)).
Defined.

(** * Further properties of the methods *)

(** ** The category and amount transforms, whatever the input *)

Lemma split_parts_no_sep c s part : In part (split c s) -> ~ In c part.
Proof.
  revert part. induction s as [|x s IH]; simpl; intros part H.
  - destruct H as [<-|[]]. intros [].
  - destruct (N.eqb_spec x c) as [->|Hn].
    + destruct H as [<-|H]; [intros []|now apply IH].
    + destruct (split c s) as [|q qs] eqn:E.
      * destruct H as [<-|[]]. intros [H|[]]. congruence.
      * destruct H as [<-|H].
        -- intros [H|H]; [congruence|]. apply (IH q); [now left|assumption].
        -- apply IH. now right.
Qed.

(** [processCategory] never raises: the index 1 it reads exists
    whenever the category holds a separator, and the sub-category it
    returns holds none. *)
Theorem processCategory_total category :
  exists r, processCategory category = Ok r
            /\ (In SLASH category -> ~ In SLASH r)
            /\ (~ In SLASH category -> r = category).
Proof.
  unfold processCategory.
  destruct (in_dec N.eq_dec SLASH category) as [Hin|Hn].
  - pose proof (find_in _ _ Hin) as Hf.
    destruct (Z.geb_spec (find SLASH category) 0); [|lia].
    destruct (split_in _ _ Hin) as (a & b & rest & E). rewrite E. simpl.
    exists b. split; [reflexivity|]. split; [|tauto].
    intros _. apply (split_parts_no_sep SLASH category). rewrite E. simpl. tauto.
  - rewrite find_notin by assumption. simpl. exists category. tauto.
Qed.

Lemma firstn_2_in {A} (l : list A) a b : firstn 2 l = [a; b] -> In a l /\ In b l.
Proof.
  destruct l as [|x [|y l]]; simpl; try discriminate.
  intros H. injection H as -> ->. tauto.
Qed.

(** Whatever [processAmount] returns holds a comma and no decimal
    point, and its part after the comma is never empty. *)
Theorem processAmount_output amount r :
  processAmount amount = Ok r ->
  ~ In DOT r
  /\ exists units cents,
       r = units ++ COMMA :: cents /\ cents <> []
       /\ ~ In DOT units /\ ~ In DOT cents.
Proof.
  unfold processAmount, processAmount_str.
  generalize (str_num amount). intros text.
  destruct (firstn 2 (split DOT text)) as [|a [|c [|x l]]] eqn:E; try discriminate.
  intros H. injection H as <-.
  apply firstn_2_in in E as [Ha Hc].
  apply split_parts_no_sep in Ha, Hc.
  set (cents := if (List.length c <? 2)%nat then c ++ py "0" else c).
  assert (Hcents : ~ In DOT cents).
  { subst cents. destruct (List.length c <? 2)%nat; [|assumption].
    intros H. apply in_app_or in H as [H|H]; [tauto|].
    destruct H as [H|[]]. discriminate H. }
  assert (Hne : cents <> []).
  { subst cents. destruct (Nat.ltb_spec (List.length c) 2) as [Hl|Hl].
    - destruct c; discriminate.
    - destruct c; simpl in Hl; [lia|discriminate]. }
  split.
  - simpl. intros H. apply in_app_or in H as [H|H]; [tauto|].
    destruct H as [H|H]; [discriminate H|]. tauto.
  - exists a, cents. simpl. tauto.
Qed.

Lemma processAmount_output_witness :
  exists units cents, py "8,50" = units ++ COMMA :: cents /\ cents <> [].
Proof.
  assert (H : processAmount (lit 85 10) = Ok (py "8,50")) by (vm_compute; reflexivity).
  destruct (processAmount_output _ _ H) as (_ & u & c & E & Hc & _).
  exists u, c. split; assumption.
Defined.

(** ** Month tokens and the range they select *)

Lemma dict_get_range table key default lo hi :
  Forall (fun kv => lo <= snd kv <= hi) table ->
  lo <= default <= hi ->
  lo <= dict_get table key default <= hi.
Proof.
  induction 1 as [|[k v] table Hkv _ IH]; simpl; intros Hd; [assumption|].
  destruct (str_eqb (py k) key); [exact Hkv|now apply IH].
Qed.

Lemma monthStrToNum_range s : 0 <= __monthStrToNum s <= 12.
Proof.
  unfold __monthStrToNum. apply dict_get_range; [|lia].
  unfold month_table. repeat constructor; simpl; lia.
Qed.

Lemma parseMonth_bounds ud now s :
  1 <= month now <= 12 -> 0 <= __parseMonth ud now s <= 12.
Proof.
  intros Hm. unfold __parseMonth.
  pose proof (monthStrToNum_range s) as Hs.
  destruct (py_int ud s) as [n|e]; simpl; [|assumption].
  rewrite Z.gtb_ltb.
  destruct (Z.ltb_spec n 1); simpl.
  - destruct (Z.eqb_spec (month now) 0); lia.
  - destruct (Z.ltb_spec 12 n).
    + destruct (Z.eqb_spec (month now) 0); lia.
    + destruct (Z.eqb_spec n 0); lia.
Qed.

(** [__parseMonth] answers 0 or a month 1..12, as its docstring says,
    for every token, provided the clock shows a month 1..12; and it
    answers 0 only for a token that is neither an integer nor a name of
    the table. *)
Theorem parseMonth_range ud now s :
  1 <= month now <= 12 ->
  0 <= __parseMonth ud now s <= 12
  /\ (__parseMonth ud now s = 0 <->
      (exists e, py_int ud s = Raise e) /\ __monthStrToNum s = 0).
Proof.
  intros Hm. split; [now apply parseMonth_bounds|].
  unfold __parseMonth.
  destruct (py_int ud s) as [n|e]; simpl.
  - rewrite Z.gtb_ltb. split.
    + destruct (Z.ltb_spec n 1); simpl.
      * destruct (Z.eqb_spec (month now) 0); lia.
      * destruct (Z.ltb_spec 12 n).
        -- destruct (Z.eqb_spec (month now) 0); lia.
        -- destruct (Z.eqb_spec n 0); lia.
    + intros [[e He] _]. discriminate He.
  - split; [intros H; split; [now exists e|exact H]|tauto].
Qed.

Lemma parseMonth_range_witness :
  0 <= __parseMonth ascii_digits_only (mkDate 2024 7 4) (py "-3") <= 12.
Proof.
  apply parseMonth_range. simpl. lia.
Defined.

Lemma setMonth_run ud now s p :
  1 <= year now <= 9999 -> 1 <= month now <= 12 ->
  __parseMonth ud now s <> 0 ->
  let m := __parseMonth ud now s in
  setMonth ud now s p
  = (Ok tt,
     mkProcess (with_endDate (VDate (mkDate (year now) m (days_in_month (year now) m)))
                  (with_startDate (VDate (mkDate (year now) m 1)) (self p)))
               (stdout p)).
Proof.
  intros Hy Hm Hnz m.
  pose proof (parseMonth_bounds ud now s Hm) as Hr. fold m in Hr, Hnz.
  assert (Hmr : 1 <= m <= 12) by lia.
  pose proof (days_in_month_bounds (year now) m Hmr) as Hb.
  unfold setMonth. fold m.
  replace (m =? 0) with false by (symmetry; apply Z.eqb_neq; lia).
  unfold bind, lift, setStartDate, setEndDate, set_self. simpl negb. cbv iota.
  rewrite monthrange_ok by assumption.
  rewrite new_date_ok by lia. rewrite new_date_ok by lia. reflexivity.
Qed.

Lemma getQueryStatement_dates now p d1 d2 :
  queryStatement (self p) = None ->
  startDate (self p) = VDate d1 -> endDate (self p) = VDate d2 ->
  fst (getQueryStatement now p) = Ok (mkStatement (str_date d1) (str_date d2)).
Proof.
  intros Hq Hs He. unfold getQueryStatement, bind, get_self. rewrite Hq.
  rewrite getStartDate_cached by (rewrite Hs; discriminate).
  rewrite getEndDate_cached by (rewrite He; discriminate).
  rewrite Hs, He. destruct (debugLevel (self p) >=? 1); reflexivity.
Qed.

(** A month token that resolves makes [setMonth] set the first and the
    last day of that month of the current year; [setMonth] does not
    raise, and the statement built next spans exactly that month. *)
Theorem setMonth_resolved ud now s p :
  1 <= year now <= 9999 -> 1 <= month now <= 12 ->
  __parseMonth ud now s <> 0 ->
  let m := __parseMonth ud now s in
  let first := mkDate (year now) m 1 in
  let last := mkDate (year now) m (gregorian_length (year now) m) in
  setMonth ud now s p
  = (Ok tt, mkProcess (with_endDate (VDate last) (with_startDate (VDate first) (self p)))
                      (stdout p))
  /\ (queryStatement (self p) = None ->
      fst (bind (setMonth ud now s) (fun _ => getQueryStatement now) p)
      = Ok (mkStatement (str_date first) (str_date last))).
Proof.
  intros Hy Hm Hnz m first last.
  pose proof (parseMonth_bounds ud now s Hm) as Hr. fold m in Hr, Hnz.
  assert (Hmr : 1 <= m <= 12) by lia.
  pose proof (days_in_month_bounds (year now) m Hmr) as Hb.
  pose proof (days_in_month_gregorian (year now) m Hmr) as Hg.
  assert (E : setMonth ud now s p
              = (Ok tt, mkProcess (with_endDate (VDate last)
                                     (with_startDate (VDate first) (self p)))
                                  (stdout p))).
  { rewrite setMonth_run by assumption. fold m. subst first last.
    rewrite Hg. reflexivity. }
  split; [exact E|].
  intros Hq. rewrite (bind_Ok _ _ _ _ _ E).
  now apply getQueryStatement_dates.
Qed.

Lemma setMonth_resolved_witness :
  fst (bind (setMonth ascii_digits_only (mkDate 2024 7 4) (py "feb"))
            (fun _ => getQueryStatement (mkDate 2024 7 4))
            (mkProcess (__init__ (py "backup") 0) []))
  = Ok (mkStatement (py "2024-02-01") (py "2024-02-29")).
Proof.
  assert (Hy : 1 <= year (mkDate 2024 7 4) <= 9999) by (simpl; lia).
  assert (Hm : 1 <= month (mkDate 2024 7 4) <= 12) by (simpl; lia).
  assert (Hn : __parseMonth ascii_digits_only (mkDate 2024 7 4) (py "feb") <> 0)
    by (vm_compute; discriminate).
  exact (proj2 (setMonth_resolved ascii_digits_only (mkDate 2024 7 4) (py "feb")
                  (mkProcess (__init__ (py "backup") 0) []) Hy Hm Hn) eq_refl).
Defined.

(** ** Explicit start and end options *)

(** A start option without an end option makes the script fail: the
    text of the option is stored as the start date, and the default end
    date asks it for the year a text does not have.  Nothing is
    printed. *)
Theorem start_without_end_raises ud now db file s dbg :
  main ud now db (mkArgs file (Some s) None None dbg)
  = (Raise AttributeError,
     mkProcess (mkQuery file None [] (VStr s) VNone (PyInt 0) dbg) []).
Proof.
  set (p1 := mkProcess (mkQuery file None [] (VStr s) VNone (PyInt 0) dbg) []).
  assert (Ec : configure ud now (mkArgs file (Some s) None None dbg)
                 (mkProcess (__init__ file dbg) []) = (Ok tt, p1)) by reflexivity.
  assert (Es : getStartDate now p1 = (Ok (VStr s), p1))
    by (now rewrite getStartDate_cached).
  assert (Ee : getEndDate now p1 = (Raise AttributeError, p1)).
  { unfold getEndDate, bind, get_self. cbn [endDate self p1].
    rewrite Es. reflexivity. }
  assert (Eq : getQueryStatement now p1 = (Raise AttributeError, p1)).
  { unfold getQueryStatement, bind, get_self. cbn [queryStatement self p1].
    rewrite Es, Ee. reflexivity. }
  unfold main, script, toCSV, toString, getResult.
  rewrite (bind_Ok _ _ _ _ _ Ec). unfold bind. rewrite Eq. reflexivity.
Qed.

(** Start and end options are used as they are written: the statement
    holds the two texts, which are neither parsed nor checked.  An end
    option alone is joined to the default start, the first day of the
    previous month. *)
Theorem explicit_range_verbatim ud now file s e dbg :
  clock_ok now ->
  fst (bind (configure ud now (mkArgs file (Some s) (Some e) None dbg))
            (fun _ => getQueryStatement now)
            (mkProcess (__init__ file dbg) []))
  = Ok (mkStatement s e)
  /\ fst (bind (configure ud now (mkArgs file None (Some e) None dbg))
               (fun _ => getQueryStatement now)
               (mkProcess (__init__ file dbg) []))
     = Ok (mkStatement
             (str_date (mkDate (fst (previous_month now)) (snd (previous_month now)) 1))
             e).
Proof.
  intros Hc. split.
  - set (p1 := mkProcess (mkQuery file None [] (VStr s) (VStr e) (PyInt 0) dbg) []).
    assert (E : configure ud now (mkArgs file (Some s) (Some e) None dbg)
                  (mkProcess (__init__ file dbg) []) = (Ok tt, p1)) by reflexivity.
    rewrite (bind_Ok _ _ _ _ _ E).
    unfold getQueryStatement, bind, get_self. cbv beta.
    change (queryStatement (self p1)) with (@None statement). cbv beta iota.
    rewrite getStartDate_cached by (simpl; discriminate). cbv beta iota.
    rewrite getEndDate_cached by (simpl; discriminate).
    simpl. destruct (dbg >=? 1); reflexivity.
  - set (p1 := mkProcess (mkQuery file None [] VNone (VStr e) (PyInt 0) dbg) []).
    assert (E : configure ud now (mkArgs file None (Some e) None dbg)
                  (mkProcess (__init__ file dbg) []) = (Ok tt, p1)) by reflexivity.
    rewrite (bind_Ok _ _ _ _ _ E).
    pose proof (getStartDate_default now p1 Hc eq_refl) as Hg. cbv zeta in Hg.
    unfold getQueryStatement, bind, get_self. cbv beta.
    change (queryStatement (self p1)) with (@None statement). cbv beta iota.
    rewrite Hg. cbv beta iota.
    rewrite getEndDate_cached by (simpl; discriminate).
    simpl. destruct (dbg >=? 1); reflexivity.
Qed.

Lemma explicit_range_verbatim_witness :
  fst (bind (configure ascii_digits_only (mkDate 2024 7 4)
               (mkArgs (py "backup") (Some (py "yesterday")) (Some (py "2024-13-99"))
                       None 0))
            (fun _ => getQueryStatement (mkDate 2024 7 4))
            (mkProcess (__init__ (py "backup") 0) []))
  = Ok (mkStatement (py "yesterday") (py "2024-13-99")).
Proof.
  assert (Hc : clock_ok (mkDate 2024 7 4)) by (unfold clock_ok; simpl; lia).
  exact (proj1 (explicit_range_verbatim ascii_digits_only (mkDate 2024 7 4)
                  (py "backup") (py "yesterday") (py "2024-13-99") 0 Hc)).
Defined.

(** ** What the methods leave alone *)

Lemma preserves_ret {A X} (obs : process -> X) (a : A) : preserves obs (ret a).
Proof. intros p. reflexivity. Qed.

Lemma preserves_lift {A X} (obs : process -> X) (o : outcome A) :
  preserves obs (lift o).
Proof. intros p. reflexivity. Qed.

Lemma preserves_get_self {X} (obs : process -> X) : preserves obs get_self.
Proof. intros p. reflexivity. Qed.

Lemma preserves_bind {A B X} (obs : process -> X) (m : M A) (f : A -> M B) :
  preserves obs m -> (forall a, preserves obs (f a)) -> preserves obs (bind m f).
Proof.
  intros Hm Hf p. unfold bind. specialize (Hm p).
  destruct (m p) as [[a|e] p1]; simpl in *; [|assumption].
  now rewrite Hf.
Qed.

Lemma preserves_for_each {A B X} (obs : process -> X) (body : A -> B -> M A) l :
  (forall acc x, preserves obs (body acc x)) ->
  forall acc, preserves obs (for_each body acc l).
Proof.
  intros Hb. induction l as [|x l IH]; intros acc; simpl.
  - apply preserves_ret.
  - apply preserves_bind; [apply Hb|intros a; apply IH].
Qed.

Ltac preserves_step :=
  first
    [ apply preserves_ret | apply preserves_lift | apply preserves_get_self
    | apply preserves_bind; [|intros ?]
    | apply preserves_for_each; intros ? ?
    | match goal with
      | |- preserves _ (match ?x with _ => _ end) => destruct x
      | |- preserves _ (if ?x then _ else _) => destruct x
      | |- preserves _ (let '(_, _) := ?x in _) => destruct x
      end
    | (intros ?; reflexivity) ].

Ltac preserves_auto := repeat preserves_step.

Lemma constants_getStartDate now : preserves constants (getStartDate now).
Proof. unfold getStartDate. preserves_auto. Qed.

Lemma constants_getEndDate now : preserves constants (getEndDate now).
Proof.
  pose proof (constants_getStartDate now) as H.
  unfold getEndDate.
  repeat first [ exact H | preserves_step ].
Qed.

Lemma constants_setMonth ud now s : preserves constants (setMonth ud now s).
Proof. unfold setMonth. preserves_auto. Qed.

Lemma constants_configure ud now args : preserves constants (configure ud now args).
Proof.
  unfold configure. destruct (arg_month args); [apply constants_setMonth|].
  preserves_auto.
Qed.

Lemma constants_getQueryStatement now : preserves constants (getQueryStatement now).
Proof.
  pose proof (constants_getStartDate now) as Hs.
  pose proof (constants_getEndDate now) as He.
  unfold getQueryStatement.
  repeat first [ exact Hs | exact He | preserves_step ].
Qed.

Lemma constants_processPaymentMethod pm : preserves constants (processPaymentMethod pm).
Proof. unfold processPaymentMethod. preserves_auto. Qed.

Lemma constants_getResult ud now db : preserves constants (getResult ud now db).
Proof.
  pose proof (constants_getQueryStatement now) as Hq.
  pose proof constants_processPaymentMethod as Hp.
  unfold getResult, getResult_step.
  repeat first [ exact Hq | apply Hp | preserves_step ].
Qed.

Lemma constants_toString ud now db : preserves constants (toString ud now db).
Proof.
  pose proof (constants_getResult ud now db) as Hr.
  unfold toString, toString_step.
  repeat first [ exact Hr | preserves_step ].
Qed.

(** No method of the run assigns [dbName], [queryResult] or
    [debugLevel]: when the script ends, normally or not, the file name
    and the debug level are those of the command line and
    [queryResult] is still the empty list. *)
Theorem run_constants ud now db args :
  let p := snd (main ud now db args) in
  dbName (self p) = sqlite3_file args
  /\ queryResult (self p) = []
  /\ debugLevel (self p) = arg_debug args.
Proof.
  assert (H : preserves constants (script ud now db args)).
  { pose proof (constants_configure ud now args) as Hc.
    pose proof (constants_toString ud now db) as Ht.
    unfold script, toCSV.
    repeat first [ exact Hc | exact Ht | preserves_step ]. }
  intros p. subst p. unfold main.
  specialize (H (mkProcess (__init__ (sqlite3_file args) (arg_debug args)) [])).
  unfold constants in H. simpl in H. injection H as H1 H2 H3. auto.
Qed.

(** ** Cached values *)

Lemma getStartDate_result now p v p1 :
  getStartDate now p = (Ok v, p1) -> startDate (self p1) = v /\ v <> VNone.
Proof.
  intros H. unfold getStartDate in H.
  apply bind_Ok_inv in H. destruct H as (q0 & p0 & E0 & H).
  apply bind_Ok_inv in H. destruct H as (u & p2 & E1 & H).
  unfold bind, get_self, ret in H. injection H as <- <-.
  unfold get_self in E0. injection E0 as <- <-.
  split; [reflexivity|].
  destruct (startDate (self p)) eqn:Hs.
  - bind_inv E1. unfold setStartDate, set_self in E1. injection E1 as _ <-.
    simpl. discriminate.
  - unfold ret in E1. injection E1 as _ <-. rewrite Hs. discriminate.
  - unfold ret in E1. injection E1 as _ <-. rewrite Hs. discriminate.
Qed.

Lemma getQueryStatement_cached now p st :
  cached_statement p = Some st -> getQueryStatement now p = (Ok st, p).
Proof.
  unfold cached_statement. intros H.
  unfold getQueryStatement, bind, get_self. rewrite H. reflexivity.
Qed.

Lemma getQueryStatement_result now p st p1 :
  getQueryStatement now p = (Ok st, p1) -> cached_statement p1 = Some st.
Proof.
  intros H. unfold getQueryStatement in H.
  apply bind_Ok_inv in H. destruct H as (q0 & p0 & E0 & H).
  unfold get_self in E0. injection E0 as <- <-.
  destruct (queryStatement (self p)) as [st'|] eqn:Hq.
  - unfold ret in H. injection H as <- <-. exact Hq.
  - bind_inv H. unfold ret in H. injection H as <- <-.
    unfold set_self in E2. injection E2 as _ <-. reflexivity.
Qed.

(** Each getter caches: after a read that succeeded, the next read
    returns the same value and changes nothing. *)
Theorem getters_idempotent now p :
  (forall v p1, getStartDate now p = (Ok v, p1) -> getStartDate now p1 = (Ok v, p1))
  /\ (forall v p1, getEndDate now p = (Ok v, p1) -> getEndDate now p1 = (Ok v, p1))
  /\ (forall st p1, getQueryStatement now p = (Ok st, p1) ->
        getQueryStatement now p1 = (Ok st, p1)).
Proof.
  repeat split.
  - intros v p1 H. apply getStartDate_result in H as [<- Hn].
    now apply getStartDate_cached.
  - intros v p1 H. apply getEndDate_result in H as [<- Hn].
    now apply getEndDate_cached.
  - intros st p1 H. apply getQueryStatement_result in H.
    now apply getQueryStatement_cached.
Qed.

Lemma statement_setMonth ud now s : preserves cached_statement (setMonth ud now s).
Proof. unfold setMonth. preserves_auto. Qed.

(** The statement is built once: after [getQueryStatement] has
    succeeded, new start and end dates, or a new month, no longer reach
    the statement, which stays the one built first. *)
Theorem statement_frozen ud now p st p1 :
  getQueryStatement now p = (Ok st, p1) ->
  (forall v, fst (getQueryStatement now (snd (setStartDate v p1))) = Ok st)
  /\ (forall v, fst (getQueryStatement now (snd (setEndDate v p1))) = Ok st)
  /\ (forall s, fst (getQueryStatement now (snd (setMonth ud now s p1))) = Ok st).
Proof.
  intros H. apply getQueryStatement_result in H.
  repeat split; intros x.
  - now rewrite (getQueryStatement_cached now _ st).
  - now rewrite (getQueryStatement_cached now _ st).
  - rewrite (getQueryStatement_cached now _ st); [reflexivity|].
    now rewrite statement_setMonth.
Qed.

Lemma statement_frozen_witness :
  let now := mkDate 2024 7 4 in
  let p1 := snd (getQueryStatement now (mkProcess (__init__ (py "backup") 0) [])) in
  fst (getQueryStatement now (snd (setMonth ascii_digits_only now (py "jan") p1)))
  = Ok (mkStatement (py "2024-06-01") (py "2024-06-30")).
Proof.
  intros now p1.
  assert (H : getQueryStatement now (mkProcess (__init__ (py "backup") 0) [])
              = (Ok (mkStatement (py "2024-06-01") (py "2024-06-30")), p1))
    by (vm_compute; reflexivity).
  exact (proj2 (proj2 (statement_frozen ascii_digits_only now _ _ _ H)) (py "jan")).
Defined.

(** ** Output without debugging *)

Lemma silent_ret {A} (a : A) : silent (ret a).
Proof. intros p _. split; reflexivity. Qed.

Lemma silent_lift {A} (o : outcome A) : silent (lift o).
Proof. intros p _. split; reflexivity. Qed.

Lemma silent_set_self f :
  (forall q, debugLevel (f q) = debugLevel q) -> silent (set_self f).
Proof. intros Hf p _. simpl. split; [apply Hf|reflexivity]. Qed.

Lemma silent_bind {A B} (m : M A) (f : A -> M B) :
  silent m -> (forall a, silent (f a)) -> silent (bind m f).
Proof.
  intros Hm Hf p Hp. unfold bind. destruct (Hm p Hp) as [Hd Hs].
  destruct (m p) as [[a|e] p1]; simpl in *; [|now split].
  destruct (Hf a p1) as [Hd' Hs']; [lia|]. split; congruence.
Qed.

(** The debug level a method reads is the one it runs at. *)
Lemma silent_bind_get_self {B} (f : MoneyManagerQuery -> M B) :
  (forall q, debugLevel q < 1 -> silent (f q)) -> silent (bind get_self f).
Proof.
  intros Hf p Hp. unfold bind, get_self. now apply Hf.
Qed.

Lemma silent_for_each {A B} (body : A -> B -> M A) l :
  (forall acc x, silent (body acc x)) -> forall acc, silent (for_each body acc l).
Proof.
  intros Hb. induction l as [|x l IH]; intros acc; simpl.
  - apply silent_ret.
  - apply silent_bind; [apply Hb|intros a; apply IH].
Qed.

Lemma silent_debug_print {A} (q : MoneyManagerQuery) k o (m : M A) :
  debugLevel q < 1 -> 1 <= k -> silent m ->
  silent (bind (if debugLevel q >=? k then print o else ret tt) (fun _ => m)).
Proof.
  intros Hq Hk Hm.
  destruct (Z.geb_spec (debugLevel q) k); [lia|].
  apply silent_bind; [apply silent_ret|intros _; exact Hm].
Qed.

Ltac silent_step :=
  first
    [ apply silent_ret | apply silent_lift
    | apply silent_set_self; intros ?; reflexivity
    | apply silent_bind_get_self; intros ? ?
    | apply silent_debug_print; [assumption|lia|]
    | apply silent_bind; [|intros ?]
    | apply silent_for_each; intros ? ?
    | match goal with
      | |- silent (match ?x with _ => _ end) => destruct x
      | |- silent (let '(_, _) := ?x in _) => destruct x
      end ].

Lemma silent_getStartDate now : silent (getStartDate now).
Proof.
  unfold getStartDate, setStartDate.
  repeat first [ silent_step | destruct (month now =? 1) ].
Qed.

Lemma silent_getEndDate now : silent (getEndDate now).
Proof.
  pose proof (silent_getStartDate now) as H.
  unfold getEndDate, setEndDate. repeat first [ exact H | silent_step ].
Qed.

Lemma silent_getQueryStatement now : silent (getQueryStatement now).
Proof.
  pose proof (silent_getStartDate now) as Hs.
  pose proof (silent_getEndDate now) as He.
  unfold getQueryStatement. repeat first [ exact Hs | exact He | silent_step ].
Qed.

Lemma silent_configure ud now args : silent (configure ud now args).
Proof.
  unfold configure, setMonth, setStartDate, setEndDate.
  repeat first [ silent_step | match goal with |- silent (if ?b then _ else _) =>
                                 destruct b end ].
Qed.

Lemma silent_toString ud now db : silent (toString ud now db).
Proof.
  pose proof (silent_getQueryStatement now) as Hq.
  unfold toString, getResult, getResult_step, processPaymentMethod, toString_step.
  repeat first [ exact Hq | silent_step ].
Qed.

(** Without the debug option the only thing the script prints is the
    report: one item when it ends normally, nothing when it raises. *)
Theorem quiet_run ud now db args :
  arg_debug args < 1 ->
  match main ud now db args with
  | (Ok report, p) => stdout p = [Line report]
  | (Raise _, p) => stdout p = []
  end.
Proof.
  intros Hd. unfold main, script, toCSV.
  set (p0 := mkProcess _ _).
  assert (H0 : debugLevel (self p0) < 1) by exact Hd.
  pose proof (silent_bind _ _ (silent_configure ud now args)
                (fun _ => silent_toString ud now db) p0 H0) as [_ Hs].
  rewrite <- bind_assoc. unfold bind at 1.
  destruct (bind (configure ud now args) (fun _ => toString ud now db) p0)
    as [[r|e] p1]; simpl in Hs.
  - unfold bind, print, ret. simpl. now rewrite Hs.
  - exact Hs.
Qed.

Lemma quiet_run_witness :
  stdout (snd (main ascii_digits_only (mkDate 2024 7 4) cine_store
                 (mkArgs (py "backup.sqlite") None None (Some (py "March")) 0)))
  = [Line cine_report].
Proof.
  pose proof (quiet_run ascii_digits_only (mkDate 2024 7 4) cine_store
                (mkArgs (py "backup.sqlite") None None (Some (py "March")) 0)) as H.
  assert (E : fst (main ascii_digits_only (mkDate 2024 7 4) cine_store
                     (mkArgs (py "backup.sqlite") None None (Some (py "March")) 0))
              = Ok cine_report) by (vm_compute; reflexivity).
  destruct (main ascii_digits_only (mkDate 2024 7 4) cine_store
              (mkArgs (py "backup.sqlite") None None (Some (py "March")) 0))
    as [[r|e] p]; simpl in *; [|discriminate E].
  injection E as ->. apply H. lia.
Defined.

(** ** Reading back decimal digits *)

Lemma digit_val_digit c : is_digit c -> digit_val c = Some (Z.of_N c - 48).
Proof.
  intros [H1 H2]. unfold digit_val.
  replace ((48 <=? c) && (c <=? 57))%N with true; [reflexivity|].
  symmetry. apply andb_true_iff. split; apply N.leb_le; assumption.
Qed.

Lemma parse_digits_digits s acc count :
  Forall is_digit s ->
  parse_digits acc count false s
  = Some (dec_value acc s, count + Z.of_nat (List.length s), []).
Proof.
  intros H. revert acc count.
  induction H as [|c s Hc _ IH]; intros acc count.
  - simpl. now rewrite Z.add_0_r.
  - cbn [parse_digits]. rewrite (digit_val_digit c Hc). rewrite IH.
    change (dec_value acc (c :: s))
      with (dec_value (10 * acc + (Z.of_N c - 48)) s).
    replace (count + Z.of_nat (List.length (c :: s)))
      with (count + 1 + Z.of_nat (List.length s))
      by (cbn [List.length]; lia).
    reflexivity.
Qed.

Lemma to_ascii_decimal_digits ud s :
  Forall is_digit s -> to_ascii_decimal ud s = Some s.
Proof.
  induction 1 as [|c s [H1 H2] _ IH]; simpl; [reflexivity|].
  replace (c <? 127)%N with true by (symmetry; apply N.ltb_lt; lia).
  now rewrite IH.
Qed.

Lemma skip_spaces_digit c s : is_digit c -> skip_spaces (c :: s) = c :: s.
Proof.
  intros [H1 H2]. simpl. unfold ascii_space.
  replace (c <=? 13)%N with false by (symmetry; apply N.leb_gt; lia).
  replace (c =? 32)%N with false by (symmetry; apply N.eqb_neq; lia).
  now rewrite andb_false_r.
Qed.

Lemma parse_int_ascii_digit_head c s :
  is_digit c ->
  parse_int_ascii (c :: s)
  = match parse_digits 0 0 false (c :: s) with
    | None => None
    | Some (v, count, rest) =>
      if int_max_str_digits <? count then None
      else
        match skip_spaces rest with
        | [] => Some v
        | _ :: _ => None
        end
    end.
Proof.
  intros [H1 H2].
  assert (C : (c = 48 \/ c = 49 \/ c = 50 \/ c = 51 \/ c = 52 \/ c = 53
               \/ c = 54 \/ c = 55 \/ c = 56 \/ c = 57)%N) by lia.
  destruct C as [->|[->|[->|[->|[->|[->|[->|[->|[->| ->]]]]]]]]]; reflexivity.
Qed.

(** [int] reads a non-empty text of ASCII digits, of at most the digits
    it converts, as the number it writes. *)
Lemma py_int_digits ud s :
  s <> [] -> Forall is_digit s ->
  Z.of_nat (List.length s) <= int_max_str_digits ->
  py_int ud s = Ok (dec_value 0 s).
Proof.
  intros Hne Hd Hl. unfold py_int. rewrite to_ascii_decimal_digits by assumption.
  destruct s as [|c s]; [contradiction|].
  rewrite parse_int_ascii_digit_head by exact (Forall_inv Hd).
  rewrite parse_digits_digits by assumption.
  replace (int_max_str_digits <? 0 + Z.of_nat (List.length (c :: s))) with false
    by (symmetry; apply Z.ltb_ge; lia).
  reflexivity.
Qed.

(** A longer text of digits is refused. *)
Lemma py_int_too_long ud s :
  Forall is_digit s -> int_max_str_digits < Z.of_nat (List.length s) ->
  py_int ud s = Raise ValueError.
Proof.
  intros Hd Hl. unfold py_int. rewrite to_ascii_decimal_digits by assumption.
  destruct s as [|c s]; [reflexivity|].
  rewrite parse_int_ascii_digit_head by exact (Forall_inv Hd).
  rewrite parse_digits_digits by assumption.
  replace (int_max_str_digits <? 0 + Z.of_nat (List.length (c :: s))) with true
    by (symmetry; apply Z.ltb_lt; lia).
  reflexivity.
Qed.

Lemma digits_of_uint_all u : Forall is_digit (digits_of_uint u).
Proof.
  apply Forall_forall. intros c H. now apply digits_of_uint_digit in H.
Qed.

Lemma dec_value_of_uint_acc u p :
  Zpos (Pos.of_uint_acc u p) = dec_value (Zpos p) (digits_of_uint u).
Proof.
  revert p. unfold dec_value.
  induction u; intros p; cbn [Pos.of_uint_acc digits_of_uint fold_left];
    try reflexivity; rewrite IHu; f_equal; lia.
Qed.

Lemma dec_value_of_uint u :
  Z.of_N (Pos.of_uint u) = dec_value 0 (digits_of_uint u).
Proof.
  induction u; simpl; try reflexivity; try assumption;
    rewrite dec_value_of_uint_acc; reflexivity.
Qed.

(** The digits [str] writes for a natural number read back as that
    number. *)
Lemma dec_value_str_N n : dec_value 0 (str_N n) = Z.of_N n.
Proof.
  unfold str_N. rewrite <- dec_value_of_uint.
  change (Pos.of_uint (N.to_uint n)) with (N.of_uint (N.to_uint n)).
  now rewrite DecimalN.Unsigned.of_to.
Qed.

Lemma str_N_nonempty n : str_N n <> [].
Proof.
  unfold str_N. destruct n as [|p]; [discriminate|].
  simpl. pose proof (DecimalPos.Unsigned.to_uint_nonnil p) as H.
  destruct (Pos.to_uint p); [contradiction|..]; discriminate.
Qed.

Lemma dec_value_zeros k s : dec_value 0 (repeat 48%N k ++ s) = dec_value 0 s.
Proof.
  unfold dec_value. induction k as [|k IH]; simpl; [reflexivity|exact IH].
Qed.

Lemma zfill_digits w n : Forall is_digit (zfill w (str_N n)).
Proof.
  unfold zfill. apply Forall_app. split.
  - apply Forall_forall. intros c H. apply repeat_spec in H. subst c.
    unfold is_digit. lia.
  - apply digits_of_uint_all.
Qed.

Lemma zfill_nonempty w n : zfill w (str_N n) <> [].
Proof.
  unfold zfill. intros H. apply app_eq_nil in H as [_ H].
  now apply str_N_nonempty in H.
Qed.

Lemma dec_value_zfill w n : dec_value 0 (zfill w (str_N n)) = Z.of_N n.
Proof.
  unfold zfill. rewrite dec_value_zeros. apply dec_value_str_N.
Qed.

Lemma small_in_seq q : (q < 100)%N -> In (N.to_nat q) (seq 0 100).
Proof. intros H. apply in_seq. lia. Qed.

Lemma str_N_short n : (n <= 9999)%N -> (List.length (str_N n) <= 4)%nat.
Proof.
  intros H.
  assert (Hq : (n / 100 < 100)%N) by (apply N.Div0.div_lt_upper_bound; lia).
  assert (Hr : (n mod 100 < 100)%N) by (apply N.mod_upper_bound; lia).
  pose proof (N.Div0.div_mod n 100) as E.
  apply small_in_seq in Hq, Hr.
  assert (A : forallb (fun a => forallb (fun b =>
                Nat.leb (List.length (str_N (N.of_nat (100 * a + b)))) 4)
                (seq 0 100)) (seq 0 100) = true) by (vm_compute; reflexivity).
  rewrite forallb_forall in A. specialize (A _ Hq).
  rewrite forallb_forall in A. specialize (A _ Hr).
  rewrite Nat2N.inj_add, Nat2N.inj_mul, !N2Nat.id in A.
  change (N.of_nat 100) with 100%N in A. rewrite <- E in A.
  now apply Nat.leb_le.
Qed.

Lemma zfill_length w s :
  List.length (zfill w s) = Nat.max w (List.length s).
Proof.
  unfold zfill. rewrite length_app, repeat_length. lia.
Qed.

Lemma py_int_zfill ud w z :
  0 <= z <= 9999 -> (w <= 4)%nat -> py_int ud (str_Z_pad w z) = Ok z.
Proof.
  intros Hz Hw. unfold str_Z_pad.
  rewrite py_int_digits;
    [|apply zfill_nonempty|apply zfill_digits|].
  - rewrite dec_value_zfill. f_equal. lia.
  - rewrite zfill_length. pose proof (str_N_short (Z.to_N z)) as H.
    unfold int_max_str_digits. lia.
Qed.

Lemma digits_no_sep c s : Forall is_digit s -> (c < 48)%N -> ~ In c s.
Proof.
  intros H Hc Hin. rewrite Forall_forall in H. apply H in Hin.
  unfold is_digit in Hin. lia.
Qed.

(** ** The date transform *)

Lemma new_date_inv y m d dt :
  new_date y m d = Ok dt ->
  dt = mkDate y m d /\ 1 <= y <= 9999 /\ 1 <= m <= 12
  /\ 1 <= d <= days_in_month y m.
Proof.
  unfold new_date.
  destruct (fits_c_int y && fits_c_int m && fits_c_int d); simpl;
    try discriminate.
  destruct (Z.leb_spec 1 y), (Z.leb_spec y 9999); simpl; try discriminate.
  destruct (Z.leb_spec 1 m), (Z.leb_spec m 12); simpl; try discriminate.
  destruct (Z.leb_spec 1 d), (Z.leb_spec d (days_in_month y m)); simpl;
    try discriminate.
  intros E. injection E as <-. repeat split; assumption.
Qed.

Lemma new_date_raise y m d e :
  new_date y m d = Raise e ->
  (e = OverflowError /\ fits_c_int y && fits_c_int m && fits_c_int d = false)
  \/ (e = ValueError /\ fits_c_int y && fits_c_int m && fits_c_int d = true).
Proof.
  unfold new_date.
  destruct (fits_c_int y && fits_c_int m && fits_c_int d); simpl.
  - repeat match goal with |- context [if ?b then _ else _] => destruct b end;
      intros H; try discriminate H; injection H as <-; right; now split.
  - intros H. injection H as <-. left. now split.
Qed.

Lemma new_date_overflow y m d :
  fits_c_int y && fits_c_int m && fits_c_int d = false ->
  new_date y m d = Raise OverflowError.
Proof. intros H. unfold new_date. now rewrite H. Qed.

Lemma py_int_raise ud s e : py_int ud s = Raise e -> e = ValueError.
Proof.
  unfold py_int. destruct (to_ascii_decimal ud s) as [a|].
  - destruct (parse_int_ascii a); intros H; [discriminate H|now injection H].
  - intros H. now injection H.
Qed.

Lemma split_nonempty c s : split c s <> [].
Proof.
  destruct s as [|x s]; simpl; [discriminate|].
  destruct (x =? c)%N; [discriminate|]. destruct (split c s); discriminate.
Qed.

(** Joining the parts of a split with the separator gives the text
    back. *)
Lemma join_split c s : join [c] (split c s) = s.
Proof.
  induction s as [|x s IH]; simpl; [reflexivity|].
  pose proof (split_nonempty c s) as Hne.
  destruct (N.eqb_spec x c) as [->|Hn].
  - destruct (split c s) as [|q qs]; [contradiction|].
    simpl in *. now rewrite IH.
  - destruct (split c s) as [|q qs]; [contradiction|].
    destruct qs as [|q' qs]; simpl in *; now rewrite <- IH.
Qed.

Lemma str_date_split dt :
  split DASH (str_date dt)
  = [str_Z_pad 4 (year dt); str_Z_pad 2 (month dt); str_Z_pad 2 (day dt)].
Proof.
  unfold str_date, str_Z_pad.
  rewrite split_app by (apply digits_no_sep; [apply zfill_digits|reflexivity]).
  rewrite split_app by (apply digits_no_sep; [apply zfill_digits|reflexivity]).
  rewrite split_notin by (apply digits_no_sep; [apply zfill_digits|reflexivity]).
  reflexivity.
Qed.

Lemma processDate_fields ud dt :
  0 <= year dt <= 9999 -> 0 <= month dt <= 9999 -> 0 <= day dt <= 9999 ->
  processDate ud (str_date dt)
  = obind (new_date (year dt) (month dt) (day dt)) (fun d => Ok (strftime_dmY d)).
Proof.
  intros Hy Hm Hd. unfold processDate. rewrite str_date_split.
  rewrite !py_int_zfill by (assumption || lia). reflexivity.
Qed.

(** The date transform turns the ISO text of every calendar date into
    day, month and year separated by slashes. *)
Theorem processDate_iso ud dt :
  valid_date dt -> processDate ud (str_date dt) = Ok (strftime_dmY dt).
Proof.
  intros Hv. pose proof (new_date_inv _ _ _ _ Hv) as (_ & Hy & Hm & Hd).
  pose proof (days_in_month_bounds (year dt) _ Hm) as Hb.
  rewrite processDate_fields by lia. unfold valid_date in Hv.
  rewrite Hv. reflexivity.
Qed.

Lemma processDate_iso_witness :
  processDate ascii_digits_only (py "2024-02-29") = Ok (py "29/02/2024").
Proof.
  apply (processDate_iso ascii_digits_only (mkDate 2024 2 29)). reflexivity.
Defined.

(** What the date transform answers, whatever the text.  A result only
    for three dash-separated integers that form a calendar date, and
    then that date as day/month/year.  Otherwise one of two exceptions:
    [OverflowError] exactly when the three parts are integers of which
    one does not fit a C [int], and [ValueError] in every other case,
    among them every text that has not exactly three parts. *)
Theorem processDate_outcome ud s :
  (forall r, processDate ud s = Ok r ->
     exists ys ms ds dt,
       s = ys ++ DASH :: ms ++ DASH :: ds
       /\ ~ In DASH ys /\ ~ In DASH ms /\ ~ In DASH ds
       /\ py_int ud ys = Ok (year dt) /\ py_int ud ms = Ok (month dt)
       /\ py_int ud ds = Ok (day dt)
       /\ valid_date dt /\ r = strftime_dmY dt)
  /\ (forall e, processDate ud s = Raise e -> e = ValueError \/ e = OverflowError)
  /\ (processDate ud s = Raise OverflowError <->
      exists ys ms ds y m d,
        split DASH s = [ys; ms; ds]
        /\ py_int ud ys = Ok y /\ py_int ud ms = Ok m /\ py_int ud ds = Ok d
        /\ fits_c_int y && fits_c_int m && fits_c_int d = false)
  /\ (List.length (split DASH s) <> 3%nat -> processDate ud s = Raise ValueError).
Proof.
  unfold processDate.
  pose proof (join_split DASH s) as Hj.
  pose proof (split_parts_no_sep DASH s) as Hp.
  assert (Hnot3 : forall l : list pystr, List.length l <> 3%nat ->
            ~ exists ys ms ds y m d,
                l = [ys; ms; ds]
                /\ py_int ud ys = Ok y /\ py_int ud ms = Ok m
                /\ py_int ud ds = Ok d
                /\ fits_c_int y && fits_c_int m && fits_c_int d = false).
  { intros l Hl (ys & ms & ds & y & m & d & -> & _). now apply Hl. }
  destruct (split DASH s) as [|ys [|ms [|ds [|x l]]]];
    try (split; [discriminate|
         split; [intros e H; left; now injection H|
         split; [split; [discriminate|intros H; exfalso;
                         revert H; apply Hnot3; simpl; lia]
                |reflexivity]]]).
  clear Hnot3. split; [|split; [|split]].
  - intros r H.
    destruct (py_int ud ys) as [y|] eqn:Ey; [|discriminate].
    destruct (py_int ud ms) as [m|] eqn:Em; [|discriminate].
    destruct (py_int ud ds) as [d|] eqn:Ed; [|discriminate].
    simpl in H. destruct (new_date y m d) as [dt|] eqn:En; [|discriminate].
    simpl in H. injection H as <-.
    pose proof (new_date_inv _ _ _ _ En) as (-> & _).
    exists ys, ms, ds, (mkDate y m d). simpl in Hj.
    repeat split; try (apply Hp; simpl; tauto); try assumption.
    now symmetry.
  - intros e H.
    destruct (py_int ud ys) as [y|] eqn:Ey;
      [|simpl in H; injection H as <-; left; now apply py_int_raise in Ey].
    destruct (py_int ud ms) as [m|] eqn:Em;
      [|simpl in H; injection H as <-; left; now apply py_int_raise in Em].
    destruct (py_int ud ds) as [d|] eqn:Ed;
      [|simpl in H; injection H as <-; left; now apply py_int_raise in Ed].
    simpl in H. destruct (new_date y m d) as [dt|] eqn:En; [discriminate|].
    simpl in H. injection H as <-.
    apply new_date_raise in En as [[-> _]|[-> _]]; [now right|now left].
  - split.
    + intros H.
      destruct (py_int ud ys) as [y|] eqn:Ey;
        [|simpl in H; injection H as H; apply py_int_raise in Ey;
          congruence].
      destruct (py_int ud ms) as [m|] eqn:Em;
        [|simpl in H; injection H as H; apply py_int_raise in Em;
          congruence].
      destruct (py_int ud ds) as [d|] eqn:Ed;
        [|simpl in H; injection H as H; apply py_int_raise in Ed;
          congruence].
      simpl in H. destruct (new_date y m d) as [dt|] eqn:En; [discriminate|].
      simpl in H. injection H as ->.
      apply new_date_raise in En as [[_ F]|[C _]]; [|discriminate C].
      exists ys, ms, ds, y, m, d. repeat split; assumption.
    + intros (ys' & ms' & ds' & y & m & d & E & Ey & Em & Ed & F).
      injection E as <- <- <-. rewrite Ey, Em, Ed. simpl.
      now rewrite (new_date_overflow _ _ _ F).
  - simpl. intros H. contradiction.
Qed.

Lemma processDate_outcome_witness :
  processDate ascii_digits_only (py "2147483648-01-01") = Raise OverflowError
  /\ processDate ascii_digits_only (py "2024-02-30") = Raise ValueError.
Proof.
  split.
  - apply (processDate_outcome ascii_digits_only (py "2147483648-01-01")).
    exists (py "2147483648"), (py "01"), (py "01"), 2147483648, 1, 1.
    repeat split; vm_compute; reflexivity.
  - destruct (processDate_outcome ascii_digits_only (py "2024-02-30"))
      as (_ & H & _).
    destruct (processDate ascii_digits_only (py "2024-02-30")) as [r|e] eqn:E;
      [vm_compute in E; discriminate E|].
    destruct (H e eq_refl) as [->| ->]; [reflexivity|].
    vm_compute in E. discriminate E.
Defined.

Lemma strftime_split dt :
  0 <= year dt ->
  split SLASH (strftime_dmY dt)
  = [str_Z_pad 2 (day dt); str_Z_pad 2 (month dt); str_N (Z.to_N (year dt))].
Proof.
  intros Hy. unfold strftime_dmY, str_Z_pad.
  rewrite split_app by (apply digits_no_sep; [apply zfill_digits|reflexivity]).
  rewrite split_app by (apply digits_no_sep; [apply zfill_digits|reflexivity]).
  assert (E : str_int (year dt) = str_N (Z.to_N (year dt))).
  { unfold str_int. destruct (year dt); try reflexivity. lia. }
  rewrite E.
  rewrite split_notin
    by (apply digits_no_sep; [apply digits_of_uint_all|reflexivity]).
  reflexivity.
Qed.

(** On ISO texts of calendar dates the date transform is one to one:
    two dates with the same output are the same date. *)
Theorem processDate_injective ud d1 d2 :
  valid_date d1 -> valid_date d2 ->
  processDate ud (str_date d1) = processDate ud (str_date d2) ->
  d1 = d2.
Proof.
  intros H1 H2 H.
  pose proof (new_date_inv _ _ _ _ H1) as (_ & Hy1 & Hm1 & Hd1).
  pose proof (new_date_inv _ _ _ _ H2) as (_ & Hy2 & Hm2 & Hd2).
  pose proof (days_in_month_bounds (year d1) _ Hm1) as Hb1.
  pose proof (days_in_month_bounds (year d2) _ Hm2) as Hb2.
  rewrite !processDate_fields in H by lia.
  unfold valid_date in H1, H2. rewrite H1, H2 in H. injection H as H.
  apply (f_equal (split SLASH)) in H.
  rewrite !strftime_split in H by lia.
  injection H as Hd Hm Hy.
  apply (f_equal (dec_value 0)) in Hd, Hm, Hy.
  unfold str_Z_pad in Hd, Hm. rewrite !dec_value_zfill in Hd, Hm.
  rewrite !dec_value_str_N in Hy.
  destruct d1, d2; simpl in *. f_equal; lia.
Qed.

Lemma processDate_injective_witness :
  mkDate 2024 3 15 = mkDate 2024 3 15.
Proof.
  apply (processDate_injective ascii_digits_only); reflexivity.
Defined.

(** ** Rows, lines and the total *)

Lemma lift_inv {A} (o : outcome A) p a p1 :
  lift o p = (Ok a, p1) -> o = Ok a /\ p1 = p.
Proof. unfold lift. intros H. injection H as -> ->. now split. Qed.

Lemma processPaymentMethod_inv pm p c p1 :
  processPaymentMethod pm p = (Ok c, p1) ->
  c = payment_code pm /\ self p1 = self p.
Proof.
  unfold processPaymentMethod, payment_code, bind, get_self, print, ret.
  destruct (debugLevel (self p) >=? 2); intros H; injection H as <- <-;
    split; reflexivity.
Qed.

Lemma debug_print_inv q k o p u p1 :
  (if debugLevel q >=? k then print o else ret tt) p = (Ok u, p1) ->
  self p1 = self p.
Proof.
  unfold print, ret. destruct (debugLevel q >=? k); intros H;
    injection H as _ <-; reflexivity.
Qed.

(** One pass of the loop of [getResult] that succeeds appends the five
    fields of the row, adds its amount to the total and changes no
    other attribute. *)
Lemma getResult_step_inv ud result t p rows p1 :
  getResult_step ud result t p = (Ok rows, p1) ->
  exists row,
    row_of ud t = Ok row /\ rows = result ++ [row]
    /\ py_add (totalAmount (self p)) (amount_of t) = Ok (totalAmount (self p1))
    /\ self p1 = with_totalAmount (totalAmount (self p1)) (self p).
Proof.
  destruct t as [[[[[zdate tr_date] tr_category] tr_name] tr_amount] tr_pay].
  unfold getResult_step. intros H.
  apply bind_Ok_inv in H. destruct H as (q0 & p0 & E0 & H).
  unfold get_self in E0. injection E0 as <- <-.
  apply bind_Ok_inv in H. destruct H as (u & pa & Ea & H).
  apply debug_print_inv in Ea.
  apply bind_Ok_inv in H. destruct H as (c1 & pb & Eb & H).
  apply lift_inv in Eb as [Eb ->].
  apply bind_Ok_inv in H. destruct H as (c2 & pc & Ec & H).
  apply lift_inv in Ec as [Ec ->].
  apply bind_Ok_inv in H. destruct H as (c4 & pd & Ed & H).
  apply lift_inv in Ed as [Ed ->].
  apply bind_Ok_inv in H. destruct H as (c5 & pe & Ee & H).
  apply processPaymentMethod_inv in Ee as [-> Ee].
  apply bind_Ok_inv in H. destruct H as (q1 & pf & Ef & H).
  unfold get_self in Ef. injection Ef as <- <-.
  apply bind_Ok_inv in H. destruct H as (tot & pg & Eg & H).
  apply lift_inv in Eg as [Eg ->].
  apply bind_Ok_inv in H. destruct H as (u' & ph & Eh & H).
  unfold set_self in Eh. injection Eh as _ <-.
  unfold ret in H. injection H as <- <-.
  exists [c1; c2; processName tr_name; c4; payment_code tr_pay].
  simpl. rewrite Eb, Ec, Ed. simpl.
  rewrite Ee, Ea in *. repeat split; try assumption.
Qed.

(** Conversely the pass succeeds whenever the transforms and the
    addition do, at every debug level. *)
Lemma getResult_step_ok ud result t p row tot :
  row_of ud t = Ok row ->
  py_add (totalAmount (self p)) (amount_of t) = Ok tot ->
  exists p1,
    getResult_step ud result t p = (Ok (result ++ [row]), p1)
    /\ self p1 = with_totalAmount tot (self p).
Proof.
  destruct t as [[[[[zdate tr_date] tr_category] tr_name] tr_amount] tr_pay].
  simpl. intros Hrow Hadd.
  destruct (processDate ud tr_date) as [c1|] eqn:E1; [|discriminate].
  destruct (processCategory tr_category) as [c2|] eqn:E2; [|discriminate].
  destruct (processAmount tr_amount) as [c4|] eqn:E4; [|discriminate].
  simpl in Hrow. injection Hrow as <-.
  destruct p as [q out]. cbn [self] in Hadd.
  unfold getResult_step, processPaymentMethod, bind, get_self, lift, print, ret,
    set_self.
  rewrite E1, E2, E4. cbn [self stdout].
  destruct (debugLevel q >=? 1); cbv beta iota; cbn [self stdout];
    destruct (debugLevel q >=? 2); cbv beta iota; cbn [self stdout];
    rewrite Hadd; eexists; split; reflexivity.
Qed.

Lemma getResult_loop_inv ud ts : forall result p rows p1,
  for_each (getResult_step ud) result ts p = (Ok rows, p1) ->
  exists rs,
    Forall2 (fun t r => row_of ud t = Ok r) ts rs /\ rows = result ++ rs
    /\ sum_from (totalAmount (self p)) (map amount_of ts)
       = Ok (totalAmount (self p1))
    /\ self p1 = with_totalAmount (totalAmount (self p1)) (self p).
Proof.
  induction ts as [|t ts IH]; intros result p rows p1 H; simpl in H.
  - unfold ret in H. injection H as <- <-. exists [].
    rewrite app_nil_r. repeat split; [constructor|]. now destruct (self p).
  - apply bind_Ok_inv in H. destruct H as (acc & pa & Ea & H).
    apply getResult_step_inv in Ea as (row & Hrow & -> & Hadd & Hself).
    apply IH in H as (rs & Hrs & -> & Hsum & Hself').
    exists (row :: rs). split; [now constructor|].
    split; [now rewrite <- app_assoc|].
    split; [simpl; rewrite Hadd; exact Hsum|].
    rewrite Hself'. rewrite Hself. reflexivity.
Qed.

Lemma getResult_loop_ok ud ts : forall result p rs tot,
  Forall2 (fun t r => row_of ud t = Ok r) ts rs ->
  sum_from (totalAmount (self p)) (map amount_of ts) = Ok tot ->
  exists p1,
    for_each (getResult_step ud) result ts p = (Ok (result ++ rs), p1)
    /\ self p1 = with_totalAmount tot (self p).
Proof.
  induction ts as [|t ts IH]; intros result p rs tot Hrs Hsum.
  - inversion Hrs; subst. simpl in *. injection Hsum as <-.
    exists p. rewrite app_nil_r. split; [reflexivity|].
    now destruct (self p).
  - inversion Hrs as [|t' row ts' rs' Hrow Hrest]; subst. simpl in Hsum.
    destruct (py_add (totalAmount (self p)) (amount_of t)) as [a|] eqn:Ea;
      [|discriminate].
    simpl in Hsum.
    destruct (getResult_step_ok ud result t p row a Hrow Ea) as (pa & Hstep & Hself).
    assert (Hsum' : sum_from (totalAmount (self pa)) (map amount_of ts) = Ok tot)
      by (rewrite Hself; exact Hsum).
    destruct (IH (result ++ [row]) pa rs' tot Hrest Hsum') as (p1 & Hloop & Hself1).
    exists p1. simpl. rewrite (bind_Ok _ _ _ _ _ Hstep), Hloop.
    split; [now rewrite <- app_assoc|].
    rewrite Hself1, Hself. reflexivity.
Qed.

Lemma getResult_inv ud now db p rows p1 :
  getResult ud now db p = (Ok rows, p1) ->
  exists st pa ts,
    getQueryStatement now p = (Ok st, pa) /\ execute db st = Ok ts
    /\ for_each (getResult_step ud) [] ts pa = (Ok rows, p1).
Proof.
  intros H. unfold getResult in H.
  apply bind_Ok_inv in H. destruct H as (st & pa & Ea & H).
  apply bind_Ok_inv in H. destruct H as (ts & pb & Eb & H).
  apply lift_inv in Eb as [Eb ->]. now exists st, pa, ts.
Qed.

Lemma row_of_five ud t r : row_of ud t = Ok r -> List.length r = 5%nat.
Proof.
  destruct t as [[[[[zd td] tc] tn] ta] tp]. simpl.
  destruct (processDate ud td); [|discriminate].
  destruct (processCategory tc); [|discriminate].
  destruct (processAmount ta); [|discriminate].
  simpl. intros H. injection H as <-. reflexivity.
Qed.

Lemma rows_five ud ts rows :
  Forall2 (fun t r => row_of ud t = Ok r) ts rows ->
  Forall (fun r => List.length r = 5%nat) rows.
Proof.
  induction 1 as [|t r ts rs Hr _ IH]; constructor; [|exact IH].
  exact (row_of_five ud t r Hr).
Qed.

Lemma getResult_five ud now db p rows p1 :
  getResult ud now db p = (Ok rows, p1) ->
  Forall (fun r => List.length r = 5%nat) rows.
Proof.
  intros H. apply getResult_inv in H as (st & pa & ts & _ & _ & H).
  apply getResult_loop_inv in H as (rs & Hrs & -> & _).
  exact (rows_five ud ts rs Hrs).
Qed.

(** What [getResult] returns when it succeeds: one row of five fields
    per row of the cursor, in the order of the cursor, each made by the
    transforms of the raw row; and it leaves [totalAmount] increased by
    the raw amounts, added in that order. *)
Theorem getResult_rows ud now db p rows p1 :
  getResult ud now db p = (Ok rows, p1) ->
  exists st ts,
    fst (getQueryStatement now p) = Ok st
    /\ execute db st = Ok ts
    /\ Forall2 (fun t r => row_of ud t = Ok r) ts rows
    /\ List.length rows = List.length ts
    /\ Forall (fun r => List.length r = 5%nat) rows
    /\ sum_from (totalAmount (self p)) (map amount_of ts)
       = Ok (totalAmount (self p1)).
Proof.
  intros H. apply getResult_inv in H as (st & pa & ts & Ea & Eb & H).
  apply getResult_loop_inv in H as (rs & Hrs & -> & Hsum & _).
  exists st, ts. rewrite Ea. simpl.
  pose proof (keeps_total_getQueryStatement now p) as K. rewrite Ea in K.
  simpl in K. rewrite K in Hsum.
  repeat split; try assumption.
  - symmetry. exact (Forall2_length Hrs).
  - exact (rows_five ud ts rs Hrs).
Qed.

Lemma getResult_rows_witness :
  exists st ts,
    fst (getQueryStatement (mkDate 2024 4 4) (mkProcess (__init__ (py "b") 0) []))
    = Ok st
    /\ execute house_store st = Ok ts
    /\ Forall2 (fun t r => row_of ascii_digits_only t = Ok r) ts
         [[py "02/03/2024"; py "Luz"; py "Factura"; py "40,30"; py "E"];
          [py "20/03/2024"; py "Comida"; py "Pan"; py "12,34"; py "INVALID"]].
Proof.
  destruct (getResult_rows ascii_digits_only (mkDate 2024 4 4) house_store
              (mkProcess (__init__ (py "b") 0) [])
              [[py "02/03/2024"; py "Luz"; py "Factura"; py "40,30"; py "E"];
               [py "20/03/2024"; py "Comida"; py "Pan"; py "12,34"; py "INVALID"]]
              (snd (getResult ascii_digits_only (mkDate 2024 4 4) house_store
                      (mkProcess (__init__ (py "b") 0) []))))
    as (st & ts & H1 & H2 & H3 & _).
  - vm_compute. reflexivity.
  - exists st, ts. repeat split; assumption.
Defined.

Lemma toString_step_five acc a b c d e p :
  toString_step acc [a; b; c; d; e] p = (Ok (acc ++ report_line [a; b; c; d; e]), p).
Proof.
  unfold toString_step, report_line. simpl. unfold bind, lift, ret. simpl.
  f_equal. f_equal.
  repeat (rewrite <- app_assoc; simpl). reflexivity.
Qed.

Lemma toString_loop rows : forall acc p,
  Forall (fun r => List.length r = 5%nat) rows ->
  for_each toString_step acc rows p = (Ok (acc ++ List.concat (map report_line rows)), p).
Proof.
  induction rows as [|r rows IH]; intros acc p H; simpl.
  - now rewrite app_nil_r.
  - inversion H as [|r' rows' Hr Hrest]; subst.
    destruct r as [|a [|b [|c [|d [|e [|x l]]]]]]; try discriminate Hr.
    rewrite (bind_Ok _ _ _ _ _ (toString_step_five acc a b c d e p)).
    rewrite IH by assumption. now rewrite <- app_assoc.
Qed.

Lemma toString_of_getResult ud now db p rows p1 :
  getResult ud now db p = (Ok rows, p1) ->
  toString ud now db p
  = (Ok (header ++ List.concat (map report_line rows)
           ++ py "Total: " ++ str_num (round2 (totalAmount (self p1)))),
     p1).
Proof.
  intros E. pose proof (getResult_five _ _ _ _ _ _ E) as H5.
  unfold toString. rewrite (bind_Ok _ _ _ _ _ E).
  rewrite (bind_Ok _ _ _ _ _ (toString_loop rows header p1 H5)).
  unfold bind, get_self, ret. now rewrite <- app_assoc.
Qed.


(** The report of a run, for every store and every debug level: when
    the dates resolve to a statement, every selected row passes the
    transforms and the amounts add up, the script returns the header,
    the lines of the rows in the order of the cursor and the rounded
    sum of the raw amounts. *)
Theorem main_report ud now db args st p1 ts rows total :
  bind (configure ud now args) (fun _ => getQueryStatement now)
       (mkProcess (__init__ (sqlite3_file args) (arg_debug args)) [])
  = (Ok st, p1) ->
  execute db st = Ok ts ->
  Forall2 (fun t r => row_of ud t = Ok r) ts rows ->
  sum_from (PyInt 0) (map amount_of ts) = Ok total ->
  fst (main ud now db args)
  = Ok (header ++ List.concat (map report_line rows)
          ++ py "Total: " ++ str_num (round2 total)).
Proof.
  intros Hq Hex Hrows Hsum.
  assert (Ht : totalAmount (self p1) = PyInt 0).
  { pose proof (keeps_total_bind _ _ (keeps_total_configure ud now args)
                  (fun _ => keeps_total_getQueryStatement now)
                  (mkProcess (__init__ (sqlite3_file args) (arg_debug args)) [])) as K.
    rewrite Hq in K. exact K. }
  apply bind_Ok_inv in Hq. destruct Hq as ([] & pa & Ec & Eq).
  rewrite <- Ht in Hsum.
  destruct (getResult_loop_ok ud ts [] p1 rows total Hrows Hsum) as (p2 & Hloop & Hself).
  assert (Hres : getResult ud now db pa = (Ok rows, p2)).
  { unfold getResult. rewrite (bind_Ok _ _ _ _ _ Eq).
    unfold bind at 1, lift. rewrite Hex. exact Hloop. }
  pose proof (toString_of_getResult ud now db pa rows p2 Hres) as Hlay.
  unfold main, script, toCSV. rewrite (bind_Ok _ _ _ _ _ Ec).
  rewrite (bind_Ok _ _ _ _ _ Hlay). unfold bind, print, ret. simpl.
  rewrite Hself. reflexivity.
Qed.

Lemma main_report_witness :
  fst (main ascii_digits_only (mkDate 2024 7 4) house_store
         (mkArgs (py "backup.sqlite") None None (Some (py "3")) 2))
  = Ok house_report.
Proof.
  set (args := mkArgs (py "backup.sqlite") None None (Some (py "3")) 2).
  set (run := bind (configure ascii_digits_only (mkDate 2024 7 4) args)
                   (fun _ => getQueryStatement (mkDate 2024 7 4))
                   (mkProcess (__init__ (sqlite3_file args) (arg_debug args)) [])).
  assert (Hq : run = (Ok (mkStatement (py "2024-03-01") (py "2024-03-31")), snd run))
    by (vm_compute; reflexivity).
  rewrite (main_report ascii_digits_only (mkDate 2024 7 4) house_store args _ _
             [ (float_of_int 732100000, py "2024-03-02", py "Casa/Luz", py "Factura",
                lit 403 10, py " Efectivo ");
               (float_of_int 732900000, py "2024-03-20", py "Comida", py "Pan",
                lit 1234 100, py "Bitcoin") ]
             [ [py "02/03/2024"; py "Luz"; py "Factura"; py "40,30"; py "E"];
               [py "20/03/2024"; py "Comida"; py "Pan"; py "12,34"; py "INVALID"] ]
             (lit 5264 100) Hq).
  - vm_compute. reflexivity.
  - vm_compute. reflexivity.
  - repeat constructor.
  - vm_compute. reflexivity.
Defined.

(** A selected row whose amount is an [int] makes [getResult] fail:
    the amount transform cannot split its text, so no report is
    produced for a range that holds such a row. *)
Theorem integer_amount_breaks_report ud now db p st ts t z :
  fst (getQueryStatement now p) = Ok st ->
  execute db st = Ok ts ->
  In t ts -> amount_of t = PyInt z ->
  forall rows, fst (getResult ud now db p) <> Ok rows.
Proof.
  intros Hq Hex Hin Hz rows H.
  destruct (getResult ud now db p) as [[rows'|e] p1] eqn:E; [|discriminate].
  simpl in H. injection H as ->.
  apply getResult_inv in E as (st' & pa & ts' & Hq' & Hex' & Hloop).
  rewrite Hq' in Hq. simpl in Hq. injection Hq as ->.
  rewrite Hex in Hex'. injection Hex' as <-.
  apply getResult_loop_inv in Hloop as (rs & Hrows & -> & _). simpl in *.
  assert (G : exists r, row_of ud t = Ok r).
  { clear -Hrows Hin. induction Hrows as [|t' r ts rs Hr _ IH]; [contradiction|].
    destruct Hin as [->|Hin]; [eauto|auto]. }
  destruct G as [r Hr].
  destruct t as [[[[[zd td] tc] tn] ta] tp]. simpl in Hz, Hr. subst ta.
  destruct (processDate ud td); [|discriminate].
  destruct (processCategory tc); [|discriminate].
  simpl in Hr. unfold processAmount in Hr.
  rewrite processAmount_str_no_dot in Hr by apply str_int_no_dot.
  discriminate.
Qed.

Lemma integer_amount_breaks_report_witness :
  fst (getResult ascii_digits_only (mkDate 2024 4 4)
         (mkStore [mkAsset (py "a") (py "PayPal")] [mkCategory (py "c") (py "Ocio")]
                  [mkInOutcome (float_of_int 1) (py "2024-03-15") (py "Movie")
                               (PyInt 8) 0 1 (py "a") (py "c")])
         (mkProcess (__init__ (py "b") 0) []))
  <> Ok [[py "15/03/2024"; py "Ocio"; py "Movie"; py "8,00"; py "P"]].
Proof.
  apply (integer_amount_breaks_report ascii_digits_only (mkDate 2024 4 4) _ _
           (mkStatement (py "2024-03-01") (py "2024-03-31"))
           [(float_of_int 1, py "2024-03-15", py "Ocio", py "Movie", PyInt 8,
             py "PayPal")]
           (float_of_int 1, py "2024-03-15", py "Ocio", py "Movie", PyInt 8,
            py "PayPal") 8).
  - vm_compute. reflexivity.
  - vm_compute. reflexivity.
  - now left.
  - reflexivity.
Defined.

(** ** Debugging does not change the report *)

Lemma alike_ret {A} (a : A) : alike (ret a) (ret a).
Proof. intros p p' H. now split. Qed.

Lemma alike_lift {A} (o : outcome A) : alike (lift o) (lift o).
Proof. intros p p' H. now split. Qed.

Lemma alike_bind {A B} (m m' : M A) (f f' : A -> M B) :
  alike m m' -> (forall a, alike (f a) (f' a)) -> alike (bind m f) (bind m' f').
Proof.
  intros Hm Hf p p' H. destruct (Hm p p' H) as [E S]. unfold bind.
  destruct (m p) as [[a|e] p1], (m' p') as [[a'|e'] p1']; simpl in *;
    try discriminate.
  - injection E as <-. now apply Hf.
  - injection E as <-. split; [reflexivity|exact S].
Qed.

Lemma alike_bind_get_self {B} (f f' : MoneyManagerQuery -> M B) :
  (forall q q', same_object q q' -> alike (f q) (f' q')) ->
  alike (bind get_self f) (bind get_self f').
Proof.
  intros Hf p p' H. unfold bind, get_self. now apply Hf.
Qed.

Lemma alike_set_self f :
  (forall q q', same_object q q' -> same_object (f q) (f q')) ->
  alike (set_self f) (set_self f).
Proof. intros Hf p p' H. split; [reflexivity|]. simpl. now apply Hf. Qed.

Lemma alike_debug_print (b b' : bool) o o' :
  alike (if b then print o else ret tt) (if b' then print o' else ret tt).
Proof. intros p p' H. destruct b, b'; now split. Qed.

Lemma alike_print o : alike (print o) (print o).
Proof. intros p p' H. now split. Qed.

Lemma alike_for_each {A B} (body body' : A -> B -> M A) l :
  (forall acc x, alike (body acc x) (body' acc x)) ->
  forall acc, alike (for_each body acc l) (for_each body' acc l).
Proof.
  intros Hb. induction l as [|x l IH]; intros acc; simpl.
  - apply alike_ret.
  - apply alike_bind; [apply Hb|intros a; apply IH].
Qed.

Ltac same_fields H :=
  let H1 := fresh in let H2 := fresh in let H3 := fresh in
  let H4 := fresh in let H5 := fresh in let H6 := fresh in
  destruct H as (H1 & H2 & H3 & H4 & H5 & H6);
  rewrite <- ?H1, <- ?H2, <- ?H3, <- ?H4, <- ?H5, <- ?H6.

Ltac alike_step :=
  first
    [ apply alike_ret | apply alike_lift | apply alike_print
    | apply alike_debug_print
    | apply alike_set_self;
      let H := fresh in
      intros ? ? H; destruct H as (? & ? & ? & ? & ? & ?);
      repeat split; simpl; assumption
    | apply alike_bind_get_self;
      let H := fresh in intros ? ? H; same_fields H
    | apply alike_bind; [|intros ?]
    | apply alike_for_each; intros ? ?
    | match goal with
      | |- alike (match ?x with _ => _ end) (match ?x with _ => _ end) => destruct x
      | |- alike (let '(_, _) := ?x in _) (let '(_, _) := ?x in _) => destruct x
      end ].

Lemma alike_getStartDate now : alike (getStartDate now) (getStartDate now).
Proof. unfold getStartDate, setStartDate. repeat alike_step. Qed.

Lemma alike_getEndDate now : alike (getEndDate now) (getEndDate now).
Proof.
  pose proof (alike_getStartDate now) as H.
  unfold getEndDate, setEndDate. repeat first [ exact H | alike_step ].
Qed.

Lemma alike_getQueryStatement now :
  alike (getQueryStatement now) (getQueryStatement now).
Proof.
  pose proof (alike_getStartDate now) as Hs.
  pose proof (alike_getEndDate now) as He.
  unfold getQueryStatement. repeat first [ exact Hs | exact He | alike_step ].
Qed.

Lemma alike_configure ud now file s e m dbg dbg' :
  alike (configure ud now (mkArgs file s e m dbg))
        (configure ud now (mkArgs file s e m dbg')).
Proof.
  unfold configure, setMonth, setStartDate, setEndDate. simpl.
  repeat first [ alike_step
               | match goal with
                 | |- alike (if ?b then _ else _) (if ?b then _ else _) => destruct b
                 end ].
Qed.

Lemma alike_toString ud now db : alike (toString ud now db) (toString ud now db).
Proof.
  pose proof (alike_getQueryStatement now) as Hq.
  unfold toString, getResult, getResult_step, processPaymentMethod, toString_step.
  repeat first [ exact Hq | alike_step ].
Qed.

(** The debug level changes what is printed, never what is returned:
    at two debug levels the script ends with the same report, or with
    the same exception, and leaves the same dates, statement and
    total. *)
Theorem debug_independent ud now db file s e m dbg dbg' :
  fst (main ud now db (mkArgs file s e m dbg))
  = fst (main ud now db (mkArgs file s e m dbg'))
  /\ same_object (self (snd (main ud now db (mkArgs file s e m dbg))))
                 (self (snd (main ud now db (mkArgs file s e m dbg')))).
Proof.
  assert (H : alike (script ud now db (mkArgs file s e m dbg))
                    (script ud now db (mkArgs file s e m dbg'))).
  { unfold script, toCSV.
    apply alike_bind; [apply alike_configure|intros _].
    apply alike_bind; [apply alike_toString|intros r].
    apply alike_bind; [apply alike_print|intros _]. apply alike_ret. }
  unfold main. apply H. repeat split.
Qed.

(** ** One calendar month *)

Lemma parseMonth_reported ud now s :
  1 <= month now <= 12 ->
  reported_month ud now (mkArgs [] None None (Some s) 0)
  = if __parseMonth ud now s =? 0 then previous_month now
    else (year now, __parseMonth ud now s).
Proof.
  intros Hm. unfold reported_month, __parseMonth, __monthStrToNum.
  cbn [arg_month].
  destruct (py_int ud s) as [n|e].
  - rewrite Z.gtb_ltb.
    destruct (Z.leb_spec 1 n), (Z.leb_spec n 12), (Z.ltb_spec n 1),
      (Z.ltb_spec 12 n); try lia; cbn [andb orb].
    + destruct (Z.eqb_spec n 0); [lia|]. destruct (Z.eqb_spec n 0); [lia|].
      reflexivity.
    + destruct (Z.eqb_spec (month now) 0); [lia|].
      destruct (Z.eqb_spec (month now) 0); [lia|]. reflexivity.
    + destruct (Z.eqb_spec (month now) 0); [lia|].
      destruct (Z.eqb_spec (month now) 0); [lia|]. reflexivity.
  - change (0 =? 0) with true. cbv iota.
    destruct (dict_get month_table (lower s) 0); reflexivity.
Qed.

(** With a month option, whatever its token, or with no date option at
    all, the dates always resolve, and to one whole calendar month, from
    its first to its last day: the month the token names, of the current
    year, or the month before [now] when the token names none or no
    option is given. *)
Theorem month_or_default_range ud now args :
  clock_ok now ->
  arg_month args <> None \/ (arg_start args = None /\ arg_end args = None) ->
  let y := fst (reported_month ud now args) in
  let m := snd (reported_month ud now args) in
  1 <= y <= 9999 /\ 1 <= m <= 12
  /\ fst (bind (configure ud now args) (fun _ => getQueryStatement now)
            (mkProcess (__init__ (sqlite3_file args) (arg_debug args)) []))
     = Ok (mkStatement (str_date (mkDate y m 1))
                       (str_date (mkDate y m (gregorian_length y m))))
  /\ (y = year now \/ (y, m) = previous_month now).
Proof.
  intros Hc Hargs. pose proof Hc as (Hy & Hm & _).
  pose proof (previous_month_ok now Hc) as [Hpy Hpm].
  set (p0 := mkProcess _ _).
  assert (Hdefault :
            forall p, self p = self p0 ->
            fst (getQueryStatement now p)
            = Ok (mkStatement
                    (str_date (mkDate (fst (previous_month now))
                                      (snd (previous_month now)) 1))
                    (str_date (mkDate (fst (previous_month now))
                                      (snd (previous_month now))
                                      (gregorian_length (fst (previous_month now))
                                                        (snd (previous_month now))))))).
  { intros p Hp.
    rewrite <- (days_in_month_gregorian _ _ Hpm).
    apply getQueryStatement_default; try assumption; rewrite Hp; reflexivity. }
  assert (Hr : reported_month ud now args
               = match arg_month args with
                 | Some s => if __parseMonth ud now s =? 0 then previous_month now
                             else (year now, __parseMonth ud now s)
                 | None => previous_month now
                 end).
  { destruct (arg_month args) as [s|] eqn:Em.
    - rewrite <- (parseMonth_reported ud now s Hm).
      unfold reported_month. now rewrite Em.
    - unfold reported_month. now rewrite Em. }
  rewrite Hr. clear Hr.
  destruct (arg_month args) as [s|] eqn:Em.
  - destruct (Z.eqb_spec (__parseMonth ud now s) 0) as [Hz|Hnz]; cbv zeta.
    + split; [assumption|]. split; [assumption|]. split.
      * unfold configure. rewrite Em.
        assert (E : setMonth ud now s p0 = (Ok tt, p0))
          by (unfold setMonth; rewrite Hz; reflexivity).
        rewrite (bind_Ok _ _ _ _ _ E). now apply Hdefault.
      * right. now destruct (previous_month now).
    + simpl fst. simpl snd.
      pose proof (parseMonth_bounds ud now s Hm) as Hb.
      split; [assumption|]. split; [lia|]. split; [|now left].
      unfold configure. rewrite Em.
      rewrite (bind_Ok _ _ _ _ _ (setMonth_run ud now s p0 Hy Hm Hnz)).
      rewrite <- days_in_month_gregorian by lia.
      now apply getQueryStatement_dates.
  - destruct Hargs as [H|[Hs He]]; [contradiction|]. cbv zeta.
    split; [assumption|]. split; [assumption|]. split.
    + unfold configure. rewrite Em, Hs, He.
      assert (E : bind (setStartDate (val_of_arg None))
                       (fun _ => setEndDate (val_of_arg None)) p0 = (Ok tt, p0))
        by reflexivity.
      rewrite (bind_Ok _ _ _ _ _ E). now apply Hdefault.
    + right. now destruct (previous_month now).
Qed.

Lemma month_or_default_range_witness :
  fst (bind (configure ascii_digits_only (mkDate 2024 7 4)
               (mkArgs (py "b") (Some (py "x")) None (Some (py "Feb")) 0))
            (fun _ => getQueryStatement (mkDate 2024 7 4))
            (mkProcess (__init__ (py "b") 0) []))
  = Ok (mkStatement (py "2024-02-01") (py "2024-02-29"))
  /\ fst (bind (configure ascii_digits_only (mkDate 2023 7 4)
                  (mkArgs (py "b") None None (Some (py " 2 ")) 1))
               (fun _ => getQueryStatement (mkDate 2023 7 4))
               (mkProcess (__init__ (py "b") 1) []))
     = Ok (mkStatement (py "2023-02-01") (py "2023-02-28"))
  /\ fst (bind (configure ascii_digits_only (mkDate 2024 1 9)
                  (mkArgs (py "b") (Some (py "x")) None (Some (py "??")) 0))
               (fun _ => getQueryStatement (mkDate 2024 1 9))
               (mkProcess (__init__ (py "b") 0) []))
     = Ok (mkStatement (py "2023-12-01") (py "2023-12-31")).
Proof.
  split; [|split].
  - assert (Hc : clock_ok (mkDate 2024 7 4)) by (unfold clock_ok; simpl; lia).
    destruct (month_or_default_range ascii_digits_only (mkDate 2024 7 4)
                (mkArgs (py "b") (Some (py "x")) None (Some (py "Feb")) 0) Hc)
      as (_ & _ & H & _); [left; discriminate|exact H].
  - assert (Hc : clock_ok (mkDate 2023 7 4)) by (unfold clock_ok; simpl; lia).
    destruct (month_or_default_range ascii_digits_only (mkDate 2023 7 4)
                (mkArgs (py "b") None None (Some (py " 2 ")) 1) Hc)
      as (_ & _ & H & _); [left; discriminate|exact H].
  - assert (Hc : clock_ok (mkDate 2024 1 9)) by (unfold clock_ok; simpl; lia).
    destruct (month_or_default_range ascii_digits_only (mkDate 2024 1 9)
                (mkArgs (py "b") (Some (py "x")) None (Some (py "??")) 0) Hc)
      as (_ & _ & H & _); [left; discriminate|exact H].
Defined.

(** ** Asking for the rows again *)



